(** * CloudProbe: the [GCPLoggingQueryApp] orchestration class of [main.py]

    A shallow embedding of the four methods of [GCPLoggingQueryApp]
    ([validate_and_set_credentials], [generate_logging_query],
    [execute_logging_query], [analyze_results]) and the properties the
    specification states about them.

    Python data is embedded as follows.
    - A [str] is a [string]: the sequence of its UTF-8 bytes.  Byte-wise
      lexicographic order on UTF-8 coincides with Python's code-point order.
    - A dynamically typed value is a [pyval].  A [float] is the rational it
      denotes (every finite binary64 is one); NaN and the infinities are not
      represented.
    - A [dict] is the list of its items in insertion order, which Python
      preserves and which decides the CSV header.
    - An exception is an [exn]; a statement that may raise is a computation in
      the monad [M], whose state survives a raise, as attribute assignments
      made inside a [try] block survive the jump to its [except] clause.
    - Calls into libraries (json, the Google SDKs, the generative-language
      client, csv, open, str) are fields of a [Services] record. *)

From Stdlib Require Import ZArith QArith Ascii String List Bool Lia.
From stdpp Require Import base option list strings pretty gmap.

Set Default Proof Using "Type".
Set Warnings "-register-all".

(** ** Python values *)

Inductive pyval : Type :=
| PyNone
| PyBool (b : bool)
| PyInt (z : Z)
| PyFloat (q : Q)
| PyStr (s : string)
| PyList (l : list pyval)
| PyDict (d : list (pyval * pyval)).

Abbreviation pydict := (list (pyval * pyval)).

Inductive comparison_op : Type := Less | Greater.

(** The exceptions the embedded code can meet.  The [TypeError]s are kept
    apart by the operation that raised them; [ServiceError] is anything an
    external call raises that is none of the others. *)
Inductive exn : Type :=
| JSONDecodeError
| TypeError_not_container (v : pyval)
| TypeError_not_subscriptable (v : pyval)
| TypeError_bad_index (v : pyval)
| TypeError_unhashable (v : pyval)
| TypeError_not_comparable (op : comparison_op) (a b : pyval)
| KeyError (k : pyval)
| ValueError_empty_sequence
| ValueError_extra_fields (rowdict : pydict)
| ServiceError (cls msg : string).

(** [isinstance(e, json.JSONDecodeError)] *)
Definition is_JSONDecodeError (e : exn) : bool :=
  match e with JSONDecodeError => true | _ => false end.

(** [bool], [int] and [float] compare with one another by value. *)
Definition py_number (v : pyval) : option Q :=
  match v with
  | PyBool b => Some (inject_Z (Z.b2z b))
  | PyInt z => Some (inject_Z z)
  | PyFloat q => Some q
  | _ => None
  end.

(** [bool(v)] *)
Definition py_truthy (v : pyval) : bool :=
  match v with
  | PyNone => false
  | PyBool b => b
  | PyInt z => negb (Z.eqb z 0)
  | PyFloat q => negb (Qeq_bool q (inject_Z 0))
  | PyStr s => negb (String.eqb s "")
  | PyList l => negb (Nat.eqb (length l) 0)
  | PyDict d => negb (Nat.eqb (length d) 0)
  end.

(** [a == b] *)
Fixpoint py_eq (a b : pyval) {struct a} : bool :=
  match a with
  | PyNone => match b with PyNone => true | _ => false end
  | PyStr s => match b with PyStr t => String.eqb s t | _ => false end
  | PyBool _ | PyInt _ | PyFloat _ =>
      match py_number a, py_number b with
      | Some x, Some y => Qeq_bool x y
      | _, _ => false
      end
  | PyList la =>
      match b with
      | PyList lb =>
          (fix go (la lb : list pyval) {struct la} : bool :=
             match la, lb with
             | [], [] => true
             | x :: xs, y :: ys => py_eq x y && go xs ys
             | _, _ => false
             end) la lb
      | _ => false
      end
  | PyDict da =>
      match b with
      | PyDict db =>
          Nat.eqb (length da) (length db) &&
          (fix all (da : pydict) {struct da} : bool :=
             match da with
             | [] => true
             | (k, v) :: r =>
                 (fix find (db : pydict) {struct db} : bool :=
                    match db with
                    | [] => false
                    | (k', v') :: r' => if py_eq k k' then py_eq v v' else find r'
                    end) db && all r
             end) da
      | _ => false
      end
  end.

(** [a < b] and [a > b], the two comparisons [min] and [max] make. *)
Fixpoint py_compare (op : comparison_op) (a b : pyval) {struct a} : exn + bool :=
  match a, b with
  | PyStr s, PyStr t =>
      inr (match op with Less => String.ltb s t | Greater => String.ltb t s end)
  | PyList la, PyList lb =>
      (fix go (la lb : list pyval) {struct la} : exn + bool :=
         match la, lb with
         | [], [] => inr false
         | [], _ :: _ => inr (match op with Less => true | Greater => false end)
         | _ :: _, [] => inr (match op with Less => false | Greater => true end)
         | x :: xs, y :: ys => if py_eq x y then go xs ys else py_compare op x y
         end) la lb
  | _, _ =>
      match py_number a, py_number b with
      | Some x, Some y =>
          inr (match op with
               | Less => negb (Qle_bool y x)
               | Greater => negb (Qle_bool x y)
               end)
      | _, _ => inl (TypeError_not_comparable op a b)
      end
  end.

Definition py_lt : pyval -> pyval -> exn + bool := py_compare Less.

Definition py_gt : pyval -> pyval -> exn + bool := py_compare Greater.

(** [hash(v)] succeeds. *)
Definition py_hashable (v : pyval) : bool :=
  match v with
  | PyList _ | PyDict _ => false
  | _ => true
  end.

(** The value stored under a key equal to [k], if any. *)
Fixpoint dict_find {V} (k : pyval) (d : list (pyval * V)) : option V :=
  match d with
  | [] => None
  | (k', v) :: d' => if py_eq k k' then Some v else dict_find k d'
  end.

(** [d[k] = v]: an existing key keeps its place, a new one goes last. *)
Fixpoint dict_set {V} (k : pyval) (v : V) (d : list (pyval * V)) : list (pyval * V) :=
  match d with
  | [] => [(k, v)]
  | (k', v') :: d' => if py_eq k k' then (k', v) :: d' else (k', v') :: dict_set k v d'
  end.

(** [d.get(k, default)] *)
Definition dict_get (k : pyval) (dflt : pyval) (d : pydict) : exn + pyval :=
  if py_hashable k then inr (default dflt (dict_find k d))
  else inl (TypeError_unhashable k).

(** [sub in s] for two strings: [sub] occurs in [s]. *)
Fixpoint str_contains (sub s : string) : bool :=
  String.prefix sub s ||
  match s with
  | EmptyString => false
  | String _ s' => str_contains sub s'
  end.

(** [item in container] for a [str] item: key membership in a dict, element
    membership in a list, substring test in a string, [TypeError] otherwise. *)
Definition py_in (item : string) (container : pyval) : exn + bool :=
  match container with
  | PyDict d => inr (bool_decide (is_Some (dict_find (PyStr item) d)))
  | PyList l => inr (existsb (py_eq (PyStr item)) l)
  | PyStr s => inr (str_contains item s)
  | _ => inl (TypeError_not_container container)
  end.

(** [container[key]] for a [str] key. *)
Definition py_getitem (container : pyval) (key : string) : exn + pyval :=
  match container with
  | PyDict d =>
      match dict_find (PyStr key) d with
      | Some v => inr v
      | None => inl (KeyError (PyStr key))
      end
  | PyList _ | PyStr _ => inl (TypeError_bad_index container)
  | _ => inl (TypeError_not_subscriptable container)
  end.

(** ** Objects of the external libraries *)

(** A [datetime], known by its ISO 8601 rendering. *)
Record datetime := { isoformat : string }.

(** The monitored resource of a log entry. *)
Record Resource := { type : pyval }.

(** The payload of a log entry: [None], a [str] or a [dict] for the empty,
    text and struct entries, or a protobuf message, which has neither a [get]
    nor an [items] attribute and is known by its [str] rendering. *)
Inductive Payload : Type :=
| PayloadValue (v : pyval)
| PayloadMessage (rendering : string).

(** The attributes [execute_logging_query] reads off an SDK log entry. *)
Record LogEntry := {
  timestamp : option datetime;
  severity : pyval;
  resource : option Resource;
  log_name : pyval;
  payload : Payload;
  labels : option pydict
}.

(** [service_account.Credentials], built from the parsed key. *)
Record Credentials := { service_account_info : pyval }.

(** [logging.Client(credentials=..., project=...)] *)
Record Client := { client_credentials : Credentials; client_project : pyval }.

(** The response of [generate_content]; reading [.text] may raise. *)
Record Response := { text : exn + string }.

(** What the code asks of its libraries.  Each field is the behaviour of one
    library call; a call that may raise returns an [exn] on the left, or
    [Some] of it when the call returns nothing of use. *)
Record Services := {
  (** [json.loads(text)] *)
  json_loads : string -> exn + pyval;
  (** [json.dumps(value, indent=n)] *)
  json_dumps : pyval -> Z -> string;
  (** [str(value)] *)
  py_str : pyval -> string;
  (** [text.strip()] *)
  str_strip : string -> string;
  (** [str(e)] for an exception [e] *)
  exn_str : exn -> string;
  (** [service_account.Credentials.from_service_account_info(info)] *)
  from_service_account_info : pyval -> option exn;
  (** [logging.Client(credentials=..., project=...)] *)
  logging_Client : Credentials -> pyval -> option exn;
  (** [list(client.list_entries(filter_=..., max_results=...,
      order_by=logging.DESCENDING))] *)
  list_entries : Client -> string -> Z -> exn + list LogEntry;
  (** [genai.configure(api_key=...)] *)
  genai_configure : string -> option exn;
  (** [genai.GenerativeModel(name)] *)
  genai_GenerativeModel : string -> option exn;
  (** [model.generate_content(prompt)], given the configured key, the name
      of the model and the prompt *)
  generate_content : option string -> string -> string -> exn + Response;
  (** [open(path, 'w', newline='', encoding='utf-8')] *)
  open_write : string -> option exn;
  (** the line the csv writer emits for a row of fields *)
  csv_writerow : list string -> string
}.

(** ** Program state and effects *)

(** The attributes of a [GCPLoggingQueryApp] instance. *)
Record GCPLoggingQueryApp := {
  logging_client : option Client;
  credentials : option Credentials;
  project_id : pyval
}.

(** [GCPLoggingQueryApp.__init__] *)
Definition init : GCPLoggingQueryApp :=
  {| logging_client := None; credentials := None; project_id := PyNone |}.

(** The calls that leave the process, in the order they are made. *)
Inductive event : Type :=
| St_error (msg : string)
| Call_from_service_account_info (info : pyval)
| Call_logging_Client (c : Credentials) (project : pyval)
| Call_list_entries (c : Client) (filter_ : string) (max_results : Z)
| Call_genai_configure (api_key : string)
| Call_GenerativeModel (name : string)
| Call_generate_content (prompt : string)
| Call_open_write (path : string).

(** Everything a method can read or change: the instance, the key set by
    [genai.configure], the files of the working directory and the calls made
    so far. *)
Record world := {
  self : GCPLoggingQueryApp;
  genai_api_key : option string;
  files : gmap string string;
  trace : list event
}.

(** A statement: it returns or raises, and leaves a world either way. *)
Definition M (A : Type) : Type := world -> (exn + A) * world.

Definition ret {A} (a : A) : M A := fun w => (inr a, w).

Definition raise {A} (e : exn) : M A := fun w => (inl e, w).

Definition bind {A B} (m : M A) (k : A -> M B) : M B :=
  fun w =>
    match m w with
    | (inr a, w') => k a w'
    | (inl e, w') => (inl e, w')
    end.

(** [try: body except Exception as e: handler(e)] *)
Definition try_except {A} (body : M A) (handler : exn -> M A) : M A :=
  fun w =>
    match body w with
    | (inr a, w') => (inr a, w')
    | (inl e, w') => handler e w'
    end.

(** An expression that may raise and touches nothing. *)
Definition lift {A} (r : exn + A) : M A := fun w => (r, w).

(** A call that returns nothing and may raise. *)
Definition guard_call (r : option exn) : M unit :=
  match r with
  | Some e => raise e
  | None => ret tt
  end.

Definition emit (ev : event) : M unit :=
  fun w => (inr tt, {| self := self w; genai_api_key := genai_api_key w;
                       files := files w; trace := trace w ++ [ev] |}).

Definition get_self : M GCPLoggingQueryApp := fun w => (inr (self w), w).

Definition set_self (a : GCPLoggingQueryApp) : M unit :=
  fun w => (inr tt, {| self := a; genai_api_key := genai_api_key w;
                       files := files w; trace := trace w |}).

Definition get_genai_api_key : M (option string) :=
  fun w => (inr (genai_api_key w), w).

Definition set_genai_api_key (k : string) : M unit :=
  fun w => (inr tt, {| self := self w; genai_api_key := Some k;
                       files := files w; trace := trace w |}).

Definition set_file (path content : string) : M unit :=
  fun w => (inr tt, {| self := self w; genai_api_key := genai_api_key w;
                       files := <[path := content]> (files w);
                       trace := trace w |}).

Declare Scope py_scope.
Delimit Scope py_scope with py.
Notation "'do' x <- m ; k" := (bind m (fun x => k))
  (at level 10, x name, m at level 100, k at level 200) : py_scope.
Notation "'exec' m ; k" := (bind m (fun _ => k))
  (at level 10, m at level 100, k at level 200) : py_scope.
#[local] Open Scope py_scope.

(** [st.error(msg)] *)
Definition st_error (msg : string) : M unit := emit (St_error msg).

Definition append_file (path content : string) : M unit :=
  fun w => (inr tt, {| self := self w; genai_api_key := genai_api_key w;
                       files := <[path := default "" (files w !! path) +:+ content]>
                                  (files w);
                       trace := trace w |}).

(** Sequencing of expressions that may raise but touch nothing. *)
Definition and_then {A B} (r : exn + A) (k : A -> exn + B) : exn + B :=
  match r with
  | inl e => inl e
  | inr a => k a
  end.

Notation "'check' x <- r ; k" := (and_then r (fun x => k))
  (at level 10, x name, r at level 100, k at level 200) : py_scope.

(** ** The methods of [GCPLoggingQueryApp] *)

Section Methods.

Variable svc : Services.

(** *** [validate_and_set_credentials] *)

Definition required_fields : list string :=
  ["type"; "project_id"; "client_id"; "client_email"; "private_key"].

(** The loop over [required_fields]: the first field that is not [in] the
    data, [None] when every field is. *)
Fixpoint first_missing (fields : list string) (data : pyval) : exn + option string :=
  match fields with
  | [] => inr None
  | field :: rest =>
      check present <- py_in field data;
      if present then first_missing rest data else inr (Some field)
  end.

(** The [try] block. *)
Definition validate_and_set_credentials_body (credentials_json : string) : M bool :=
  do credentials_data <- lift (json_loads svc credentials_json);
  do missing <- lift (first_missing required_fields credentials_data);
  match missing with
  | Some field =>
      exec st_error ("Missing required field: " +:+ field);
      ret false
  | None =>
      exec emit (Call_from_service_account_info credentials_data);
      exec guard_call (from_service_account_info svc credentials_data);
      let creds := {| service_account_info := credentials_data |} in
      do a <- get_self;
      exec set_self {| logging_client := logging_client a;
                       credentials := Some creds;
                       project_id := project_id a |};
      do project <- lift (py_getitem credentials_data "project_id");
      do a <- get_self;
      exec set_self {| logging_client := logging_client a;
                       credentials := credentials a;
                       project_id := project |};
      exec emit (Call_logging_Client creds project);
      exec guard_call (logging_Client svc creds project);
      do a <- get_self;
      exec set_self {| logging_client :=
                         Some {| client_credentials := creds;
                                 client_project := project |};
                       credentials := credentials a;
                       project_id := project_id a |};
      ret true
  end.

(** The two [except] clauses. *)
Definition validate_and_set_credentials_except (e : exn) : M bool :=
  if is_JSONDecodeError e then
    exec st_error "Invalid JSON format in credentials";
    ret false
  else
    exec st_error ("Error setting up credentials: " +:+ exn_str svc e);
    ret false.

Definition validate_and_set_credentials (credentials_json : string) : M bool :=
  try_except (validate_and_set_credentials_body credentials_json)
             validate_and_set_credentials_except.

(** *** [generate_logging_query] *)

(** The double quote character. *)
Definition dq : string := String (ascii_of_nat 34) EmptyString.

(** The f-string [prompt]. *)
Definition query_prompt (user_question : string) : string :=
  "
            You are an expert in Google Cloud Logging queries. Generate a Cloud Logging query based on the user's question.
            
            User Question: " +:+
  user_question +:+
  "
            
            Guidelines:
            1. Use proper Cloud Logging query syntax
            2. Include relevant resource types (like gce_instance, dataflow_job, etc.)
            3. Use appropriate time filters (today means last 24 hours)
            4. Include severity levels when relevant
            5. For cost queries, look for billing or cost-related logs
            6. For failure queries, look for ERROR severity or specific error messages
            7. Return ONLY the query string, no explanations
            8. do not use syntax like timestamp >= " +:+
  dq +:+
  "now-24h" +:+
  dq +:+
  " give proper timestamp value
            
            Common resource types:
            - dataflow_job (for Dataflow jobs)
            - gce_instance (for Compute Engine)
            - cloud_function (for Cloud Functions)
            - gke_cluster (for GKE)
            - cloud_sql_database (for Cloud SQL)
            
            Examples:
            - For failed Dataflow jobs today: resource.type=" +:+
  dq +:+
  "dataflow_job" +:+
  dq +:+
  " AND severity=" +:+
  dq +:+
  "ERROR" +:+
  dq +:+
  " AND timestamp>=" +:+
  dq +:+
  "2024-01-01T00:00:00Z" +:+
  dq +:+
  "
            - For cost information: resource.type=" +:+
  dq +:+
  "billing_account" +:+
  dq +:+
  " OR jsonPayload.cost EXISTS
            
            Generate the query:
            ".

(** [genai.configure(api_key=...)] followed by [genai.GenerativeModel(name)];
    the model is known by its name. *)
Definition genai_model (gemini_api_key name : string) : M string :=
  exec emit (Call_genai_configure gemini_api_key);
  exec guard_call (genai_configure svc gemini_api_key);
  exec set_genai_api_key gemini_api_key;
  exec emit (Call_GenerativeModel name);
  exec guard_call (genai_GenerativeModel svc name);
  ret name.

(** [model.generate_content(prompt)], which uses the key that
    [genai.configure] stored. *)
Definition model_generate_content (model prompt : string) : M Response :=
  do key <- get_genai_api_key;
  exec emit (Call_generate_content prompt);
  lift (generate_content svc key model prompt).

(** The [try] block. *)
Definition generate_logging_query_body (user_question gemini_api_key : string)
  : M string :=
  do model <- genai_model gemini_api_key "gemini-1.5-flash";
  let prompt := query_prompt user_question in
  do response <- model_generate_content model prompt;
  do t <- lift (text response);
  ret (str_strip svc t).

Definition generate_logging_query_except (e : exn) : M string :=
  exec st_error ("Error generating query with Gemini: " +:+ exn_str svc e);
  ret "".

Definition generate_logging_query (user_question gemini_api_key : string)
  : M string :=
  try_except (generate_logging_query_body user_question gemini_api_key)
             generate_logging_query_except.

(** *** [execute_logging_query] *)

(** [str(entry.payload)] *)
Definition payload_str (p : Payload) : string :=
  match p with
  | PayloadValue v => py_str svc v
  | PayloadMessage rendering => rendering
  end.

(** The dict literal [entry_dict].  Of the payloads only a dict has the
    attributes [get] and [items] that the two [hasattr] tests ask for. *)
Definition entry_dict (entry : LogEntry) : pydict :=
  [ (PyStr "timestamp",
      match timestamp entry with
      | Some t => PyStr (isoformat t)
      | None => PyStr ""
      end);
    (PyStr "severity", severity entry);
    (PyStr "resource_type",
      match resource entry with
      | Some r => type r
      | None => PyStr ""
      end);
    (PyStr "log_name", log_name entry);
    (PyStr "text_payload",
      match payload entry with
      | PayloadValue (PyDict d) => default (PyStr "") (dict_find (PyStr "message") d)
      | p => PyStr (payload_str p)
      end);
    (PyStr "json_payload",
      match payload entry with
      | PayloadValue (PyDict d) => PyStr (py_str svc (PyDict d))
      | _ => PyStr ""
      end);
    (PyStr "labels",
      match labels entry with
      | Some l => if py_truthy (PyDict l) then PyStr (py_str svc (PyDict l)) else PyStr ""
      | None => PyStr ""
      end) ].

(** [d.keys()] *)
Definition dict_keys {V} (d : list (pyval * V)) : list pyval := map fst d.

(** The text the csv writer makes of one field. *)
Definition csv_field (v : pyval) : string :=
  match v with
  | PyNone => ""
  | PyStr s => s
  | _ => py_str svc v
  end.

(** [DictWriter._dict_to_list], with the default [extrasaction='raise'] and
    [restval='']. *)
Definition dict_to_list (fieldnames : list pyval) (rowdict : pydict)
  : exn + list pyval :=
  if forallb (fun k => existsb (py_eq k) fieldnames) (dict_keys rowdict)
  then inr (map (fun key => default (PyStr "") (dict_find key rowdict)) fieldnames)
  else inl (ValueError_extra_fields rowdict).

(** [DictWriter.writerow] on the file at [path]. *)
Definition writerow (path : string) (fieldnames : list pyval) (rowdict : pydict)
  : M unit :=
  do row <- lift (dict_to_list fieldnames rowdict);
  append_file path (csv_writerow svc (map csv_field row)).

(** [DictWriter.writeheader]: the row [dict(zip(fieldnames, fieldnames))]. *)
Definition writeheader (path : string) (fieldnames : list pyval) : M unit :=
  writerow path fieldnames (map (fun k => (k, k)) fieldnames).

(** [DictWriter.writerows] *)
Fixpoint writerows (path : string) (fieldnames : list pyval) (rowdicts : list pydict)
  : M unit :=
  match rowdicts with
  | [] => ret tt
  | rowdict :: rest =>
      exec writerow path fieldnames rowdict;
      writerows path fieldnames rest
  end.

(** [open(path, 'w', ...)]: the file is created or truncated. *)
Definition open_w (path : string) : M unit :=
  exec emit (Call_open_write path);
  exec guard_call (open_write svc path);
  set_file path "".

(** The [with open(...) as file] block that saves the results. *)
Definition save_to_csv (path : string) (results : list pydict) : M unit :=
  exec open_w path;
  match results with
  | [] => ret tt
  | first :: _ =>
      let fieldnames := dict_keys first in
      exec writeheader path fieldnames;
      writerows path fieldnames results
  end.

(** The [try] block. *)
Definition execute_logging_query_body (query_string : string) (max_results : Z)
  : M (list pydict) :=
  do a <- get_self;
  match logging_client a with
  | None =>
      exec st_error "Logging client not initialized";
      ret []
  | Some client =>
      exec emit (Call_list_entries client query_string max_results);
      do entries <- lift (list_entries svc client query_string max_results);
      let results := map entry_dict entries in
      exec save_to_csv "my_dict.csv" results;
      ret results
  end.

Definition execute_logging_query_except (e : exn) : M (list pydict) :=
  exec st_error ("Error executing query: " +:+ exn_str svc e);
  ret [].

Definition execute_logging_query (query_string : string) (max_results : Z)
  : M (list pydict) :=
  try_except (execute_logging_query_body query_string max_results)
             execute_logging_query_except.

(** *** [analyze_results] *)

Record TimeRange := { earliest : pyval; latest : pyval }.

(** The dict [results_summary]. *)
Record ResultsSummary := {
  total_entries : nat;
  severity_counts : list (pyval * nat);
  resource_types : list (pyval * nat);
  time_range : TimeRange
}.

(** [min] or [max] of the generator
    [r['timestamp'] for r in results if r['timestamp']]: [cur] is the best
    item met so far and [better item cur] is [item < cur] for [min] and
    [item > cur] for [max]. *)
Fixpoint select_timestamp (better : pyval -> pyval -> exn + bool)
    (cur : option pyval) (results : list pydict) : exn + pyval :=
  match results with
  | [] =>
      match cur with
      | Some v => inr v
      | None => inl ValueError_empty_sequence
      end
  | r :: rest =>
      check cond <- py_getitem (PyDict r) "timestamp";
      if py_truthy cond then
        check item <- py_getitem (PyDict r) "timestamp";
        match cur with
        | None => select_timestamp better (Some item) rest
        | Some c =>
            check b <- better item c;
            select_timestamp better (Some (if b then item else c)) rest
        end
      else select_timestamp better cur rest
  end.

(** [counts[key] = counts.get(key, 0) + 1] *)
Definition increment (key : pyval) (counts : list (pyval * nat))
  : exn + list (pyval * nat) :=
  if py_hashable key
  then inr (dict_set key (default 0%nat (dict_find key counts) + 1)%nat counts)
  else inl (TypeError_unhashable key).

(** The loop counting severities and resource types. *)
Fixpoint count_entries (results : list pydict) (sevs types : list (pyval * nat))
  : exn + (list (pyval * nat) * list (pyval * nat)) :=
  match results with
  | [] => inr (sevs, types)
  | result :: rest =>
      check sev <- dict_get (PyStr "severity") (PyStr "UNKNOWN") result;
      check res_type <- dict_get (PyStr "resource_type") (PyStr "UNKNOWN") result;
      check sevs' <- increment sev sevs;
      check types' <- increment res_type types;
      count_entries rest sevs' types'
  end.

(** Lines 177 to 193: the summary as it stands when the loop is over. *)
Definition results_summary (results : list pydict) : exn + ResultsSummary :=
  check first <- select_timestamp py_lt None results;
  check last <- select_timestamp py_gt None results;
  check counts <- count_entries results [] [];
  inr {| total_entries := length results;
         severity_counts := fst counts;
         resource_types := snd counts;
         time_range := {| earliest := first; latest := last |} |}.

(** The summary as the value [json.dumps] receives. *)
Definition summary_value (s : ResultsSummary) : pyval :=
  let counts (c : list (pyval * nat)) :=
    PyDict (map (fun kv => (fst kv, PyInt (Z.of_nat (snd kv)))) c) in
  PyDict [ (PyStr "total_entries", PyInt (Z.of_nat (total_entries s)));
           (PyStr "severity_counts", counts (severity_counts s));
           (PyStr "resource_types", counts (resource_types s));
           (PyStr "time_range",
             PyDict [ (PyStr "earliest", earliest (time_range s));
                      (PyStr "latest", latest (time_range s)) ]) ].

(** The f-string [analysis_prompt]. *)
Definition analysis_prompt (user_question : string) (summary sample_entries : pyval)
  : string :=
  "
            Analyze these Google Cloud Logging query results and answer the user's question.
            
            User Question: " +:+
  user_question +:+
  "
            
            Results Summary:
            " +:+
  json_dumps svc summary 2 +:+
  "
            
            Sample Log Entries:
            " +:+
  json_dumps svc sample_entries 2 +:+
  "
            
            Please provide:
            1. Direct answer to the user's question
            2. Key insights from the logs
            3. Any patterns or trends noticed
            4. Recommendations if applicable
            
            Keep the response clear and actionable.
            ".

(** The [try] block. *)
Definition analyze_results_body (results : list pydict)
    (user_question gemini_api_key : string) : M string :=
  match results with
  | [] => ret "No results found for your query."
  | _ :: _ =>
      do model <- genai_model gemini_api_key "gemini-1.5-flash";
      do summary <- lift (results_summary results);
      let sample_entries := take 3 results in
      let prompt :=
        analysis_prompt user_question (summary_value summary)
                        (PyList (map PyDict sample_entries)) in
      do response <- model_generate_content model prompt;
      lift (text response)
  end.

Definition analyze_results_except (e : exn) : M string :=
  exec st_error ("Error analyzing results: " +:+ exn_str svc e);
  ret "Error analyzing results".

Definition analyze_results (results : list pydict)
    (user_question gemini_api_key : string) : M string :=
  try_except (analyze_results_body results user_question gemini_api_key)
             analyze_results_except.

End Methods.

(** ** Concrete services and inputs

    One instance of [Services] on which the methods can be run: every SDK
    call succeeds, and the renderings agree with CPython 3.11 on the values
    the examples below use. *)

Module Sample.

Definition type_name (v : pyval) : string :=
  match v with
  | PyNone => "NoneType"
  | PyBool _ => "bool"
  | PyInt _ => "int"
  | PyFloat _ => "float"
  | PyStr _ => "str"
  | PyList _ => "list"
  | PyDict _ => "dict"
  end.

(** [str(v)] for [None], a [bool], an [int] or a [str]; the name of the type
    stands in for the other values, which no example renders. *)
Definition value_text (v : pyval) : string :=
  match v with
  | PyNone => "None"
  | PyBool true => "True"
  | PyBool false => "False"
  | PyInt z => pretty z
  | PyStr s => s
  | _ => "<" +:+ type_name v +:+ ">"
  end.

Definition op_name (op : comparison_op) : string :=
  match op with Less => "<" | Greater => ">" end.

(** [str(e)] *)
Definition exn_text (e : exn) : string :=
  match e with
  | JSONDecodeError => "Expecting value: line 1 column 1 (char 0)"
  | TypeError_not_container v =>
      "argument of type '" +:+ type_name v +:+ "' is not iterable"
  | TypeError_not_subscriptable v =>
      "'" +:+ type_name v +:+ "' object is not subscriptable"
  | TypeError_bad_index v =>
      match v with
      | PyStr _ => "string indices must be integers, not 'str'"
      | _ => type_name v +:+ " indices must be integers or slices, not str"
      end
  | TypeError_unhashable v => "unhashable type: '" +:+ type_name v +:+ "'"
  | TypeError_not_comparable op a b =>
      "'" +:+ op_name op +:+ "' not supported between instances of '"
      +:+ type_name a +:+ "' and '" +:+ type_name b +:+ "'"
  | KeyError k => "'" +:+ value_text k +:+ "'"
  | ValueError_empty_sequence => "min() arg is an empty sequence"
  | ValueError_extra_fields _ => "dict contains fields not in fieldnames"
  | ServiceError _ msg => msg
  end.

Definition is_space (c : ascii) : bool :=
  let n := nat_of_ascii c in
  (Nat.leb 9 n && Nat.leb n 13) || (Nat.leb 28 n && Nat.leb n 32).

Fixpoint lstrip (s : string) : string :=
  match s with
  | String c s' => if is_space c then lstrip s' else s
  | EmptyString => EmptyString
  end.

(** [s.strip()] on ASCII text. *)
Definition strip (s : string) : string :=
  String.rev (lstrip (String.rev (lstrip s))).

Definition crlf : string :=
  String (ascii_of_nat 13) (String (ascii_of_nat 10) EmptyString).

(** A csv row whose fields need no quoting. *)
Definition writerow_plain (fields : list string) : string :=
  String.concat "," fields +:+ crlf.

(** A JSON string literal for a text that needs no escape. *)
Definition jstr (s : string) : string := dq +:+ s +:+ dq.

Definition key_value (type_ : pyval) : pyval :=
  PyDict [ (PyStr "type", type_);
           (PyStr "project_id", PyStr "demo-project");
           (PyStr "client_id", PyStr "1234");
           (PyStr "client_email", PyStr "probe@demo-project.iam.gserviceaccount.com");
           (PyStr "private_key", PyStr "PEM");
           (PyStr "token_uri", PyStr "https://oauth2.googleapis.com/token") ].

Definition key_text (type_ : string) : string :=
  "{" +:+ jstr "type" +:+ ": " +:+ type_ +:+ ", "
      +:+ jstr "project_id" +:+ ": " +:+ jstr "demo-project" +:+ ", "
      +:+ jstr "client_id" +:+ ": " +:+ jstr "1234" +:+ ", "
      +:+ jstr "client_email" +:+ ": "
      +:+ jstr "probe@demo-project.iam.gserviceaccount.com" +:+ ", "
      +:+ jstr "private_key" +:+ ": " +:+ jstr "PEM" +:+ ", "
      +:+ jstr "token_uri" +:+ ": " +:+ jstr "https://oauth2.googleapis.com/token"
      +:+ "}".

(** A service account key, and the same key with the number 1 as its type. *)
Definition good_key : string := key_text (jstr "service_account").
Definition odd_key : string := key_text "1".

(** A key without [client_email]. *)
Definition short_key : string :=
  "{" +:+ jstr "type" +:+ ": " +:+ jstr "service_account" +:+ ", "
      +:+ jstr "project_id" +:+ ": " +:+ jstr "demo-project" +:+ ", "
      +:+ jstr "client_id" +:+ ": " +:+ jstr "1234" +:+ "}".

(** [json.loads] on the texts the examples use; any other text is refused. *)
Definition loads (s : string) : exn + pyval :=
  if String.eqb s good_key then inr (key_value (PyStr "service_account"))
  else if String.eqb s odd_key then inr (key_value (PyInt 1))
  else if String.eqb s short_key then
    inr (PyDict [ (PyStr "type", PyStr "service_account");
                  (PyStr "project_id", PyStr "demo-project");
                  (PyStr "client_id", PyStr "1234") ])
  else if String.eqb s "5" then inr (PyInt 5)
  else if String.eqb s "null" then inr PyNone
  else inl JSONDecodeError.

Definition at_noon : datetime := {| isoformat := "2024-01-01T12:00:00+00:00" |}.
Definition at_one : datetime := {| isoformat := "2024-01-01T13:00:00+00:00" |}.

(** A text entry, a struct entry whose message is a number, and an entry
    that carries nothing. *)
Definition text_entry : LogEntry :=
  {| timestamp := Some at_one; severity := PyStr "ERROR";
     resource := Some {| type := PyStr "gce_instance" |};
     log_name := PyStr "projects/demo-project/logs/syslog";
     payload := PayloadValue (PyStr "disk full"); labels := None |}.

Definition struct_entry : LogEntry :=
  {| timestamp := Some at_noon; severity := PyStr "INFO";
     resource := Some {| type := PyStr "gce_instance" |};
     log_name := PyStr "projects/demo-project/logs/app";
     payload := PayloadValue (PyDict [ (PyStr "message", PyInt 42) ]);
     labels := None |}.

Definition bare_entry : LogEntry :=
  {| timestamp := None; severity := PyNone; resource := None;
     log_name := PyNone; payload := PayloadValue PyNone; labels := None |}.

Definition svc : Services :=
  {| json_loads := loads;
     json_dumps := fun v _ => value_text v;
     py_str := value_text;
     str_strip := strip;
     exn_str := exn_text;
     from_service_account_info := fun _ => None;
     logging_Client := fun _ _ => None;
     list_entries := fun _ _ _ => inr [text_entry; bare_entry];
     genai_configure := fun _ => None;
     genai_GenerativeModel := fun _ => None;
     generate_content := fun _ _ _ => inr {| text := inr " severity>=ERROR " |};
     open_write := fun _ => None;
     csv_writerow := writerow_plain |}.

Definition client : Client :=
  {| client_credentials := {| service_account_info := key_value (PyStr "service_account") |};
     client_project := PyStr "demo-project" |}.

(** A fresh instance in a directory that already holds a dump. *)
Definition fresh : world :=
  {| self := init; genai_api_key := None;
     files := {[ "my_dict.csv" := "old" ]}; trace := [] |}.

(** The same after a successful validation. *)
Definition connected : world :=
  {| self := {| logging_client := Some client;
                credentials := Some (client_credentials client);
                project_id := PyStr "demo-project" |};
     genai_api_key := None;
     files := {[ "my_dict.csv" := "old" ]}; trace := [] |}.

End Sample.

(** ** Vocabulary of the properties *)

(** The messages a trace hands to [st.error], oldest first. *)
Fixpoint errors (t : list event) : list string :=
  match t with
  | [] => []
  | St_error msg :: t' => msg :: errors t'
  | _ :: t' => errors t'
  end.

(** The world [w] after the events [evs]. *)
Definition after (w : world) (evs : list event) : world :=
  {| self := self w; genai_api_key := genai_api_key w;
     files := files w; trace := trace w ++ evs |}.

(** [isinstance(v, str)] *)
Definition is_str (v : pyval) : bool :=
  match v with PyStr _ => true | _ => false end.


(** The field [f] is a key of the JSON object [d]. *)
Definition has_field (d : pydict) (f : string) : Prop :=
  is_Some (dict_find (PyStr f) d).

(** The keys of a log-entry record. *)
Definition entry_fields : list string :=
  ["timestamp"; "severity"; "resource_type"; "log_name"; "text_payload";
   "json_payload"; "labels"].

(** The csv text of one log-entry record, and of the whole dump: nothing
    for no entries, else the header row and a row per entry. *)
Definition entry_row (svc : Services) (entry : LogEntry) : string :=
  csv_writerow svc (csv_field svc <$> (snd <$> entry_dict svc entry)).

Definition csv_dump (svc : Services) (entries : list LogEntry) : string :=
  match entries with
  | [] => ""
  | _ :: _ =>
      csv_writerow svc entry_fields
      +:+ foldr (fun entry text => entry_row svc entry +:+ text) "" entries
  end.


(** The timestamp of a record when it is a string, and the non-empty
    timestamps of a result list, in order. *)
Definition timestamp_of (r : pydict) : option string :=
  match dict_find (PyStr "timestamp") r with
  | Some (PyStr t) => Some t
  | _ => None
  end.

Definition timestamps (results : list pydict) : list string :=
  List.filter (fun t => negb (String.eqb t "")) (omap timestamp_of results).

(** What [min] ([Less]) or [max] ([Greater]) keeps of the best string so far
    and the next one. *)
Definition str_pick (op : comparison_op) (cur item : string) : string :=
  if match op with
     | Less => String.ltb item cur
     | Greater => String.ltb cur item
     end
  then item else cur.

(** The values [analyze_results] counts a record under can be hashed. *)
Definition countable_record (r : pydict) : Prop :=
  py_hashable (default (PyStr "UNKNOWN") (dict_find (PyStr "severity") r)) = true
  /\ py_hashable (default (PyStr "UNKNOWN") (dict_find (PyStr "resource_type") r)) = true.

(** The severity and the resource type [analyze_results] counts a record
    under. *)
Definition severity_of (r : pydict) : pyval :=
  default (PyStr "UNKNOWN") (dict_find (PyStr "severity") r).

Definition resource_type_of (r : pydict) : pyval :=
  default (PyStr "UNKNOWN") (dict_find (PyStr "resource_type") r).

(** How many records a key of the counts stands for. *)
Definition tally (field : pydict -> pyval) (k : pyval) (results : list pydict) : nat :=
  length (List.filter (fun r => py_eq k (field r)) results).

(** The timestamp text [execute_logging_query] gives an entry. *)
Definition entry_stamp (entry : LogEntry) : string :=
  match timestamp entry with
  | Some t => isoformat t
  | None => ""
  end.

(** ** The page: [styles.py] and [main]

    A call into the UI framework is a [ui_call]; keyword arguments that only
    style a widget (height, help, placeholder, type) are not recorded.  The
    calls [main] makes are logged in [display], next to the world the methods
    act on; [st.error] goes to the trace of the world, as it does when a
    method calls it.  What the widgets return is given by the [Inputs] of the
    run. *)

Inductive ui_call : Type :=
| St_markdown (body : string) (unsafe_allow_html : bool)
| St_sidebar_header (label : string)
| St_sidebar_subheader (label : string)
| St_sidebar_text_area (label : string)
| St_sidebar_text_input (label : string)
| St_sidebar_button (label : string)
| St_header (label : string)
| St_subheader (label : string)
| St_columns (spec : pyval)
| St_text_input (label : string)
| St_selectbox (label : string) (options : list string)
| St_button (label : string)
| St_spinner (text : string)
| St_expander (label : string)
| St_json (value : pyval)
| St_divider
| St_warning (msg : string)
| St_info (msg : string).

(** What the widgets of one run return. *)
Record Inputs := {
  input_credentials : string;
  input_api_key : string;
  clicked_validate : bool;
  input_question : string;
  input_example : string;
  clicked_analyze : bool
}.

Record page := { page_world : world; display : list ui_call }.

(** A statement of [main]. *)
Definition P (A : Type) : Type := page -> (exn + A) * page.

Definition pret {A} (a : A) : P A := fun p => (inr a, p).

Definition pbind {A B} (m : P A) (k : A -> P B) : P B :=
  fun p =>
    match m p with
    | (inr a, p') => k a p'
    | (inl e, p') => (inl e, p')
    end.

(** A statement that acts on the world alone. *)
Definition in_world {A} (m : M A) : P A :=
  fun p =>
    match m (page_world p) with
    | (r, w') => (r, {| page_world := w'; display := display p |})
    end.

Definition draw (c : ui_call) : P unit :=
  fun p => (inr tt, {| page_world := page_world p; display := display p ++ [c] |}).

Declare Scope page_scope.
Delimit Scope page_scope with page.
Notation "'do' x <- m ; k" := (pbind m (fun x => k))
  (at level 10, x name, m at level 100, k at level 200) : page_scope.
Notation "'exec' m ; k" := (pbind m (fun _ => k))
  (at level 10, m at level 100, k at level 200) : page_scope.

(** *** [styles.py] *)

(** [render_status_badge]: the markup. *)
Definition status_badge (status : string) (is_success : bool) : string :=
  let badge_class := if is_success then "status-badge" else "error-badge" in
  "
        <div style=" +:+
  dq +:+
  "text-align: center; margin: 10px 0;" +:+
  dq +:+
  ">
            <span class=" +:+
  dq +:+
  badge_class +:+
  dq +:+
  ">" +:+
  status +:+
  "</span>
        </div>
        ".

(** The paragraph a metric card gives its description, when it has one. *)
Definition description_paragraph (description : string) : string :=
  if negb (String.eqb description "") then
    "<p style=" +:+
  dq +:+
  "font-size: 0.8rem; color: #9ca3af;" +:+
  dq +:+
  ">" +:+
  description +:+
  "</p>"
  else "".

(** [render_metric_card]: the markup. *)
Definition metric_card (title value description : string) : string :=
  "
        <div class=" +:+
  dq +:+
  "metric-card" +:+
  dq +:+
  ">
            <h3>" +:+
  value +:+
  "</h3>
            <p><strong>" +:+
  title +:+
  "</strong></p>
            " +:+
  description_paragraph description +:+
  "
        </div>
        ".

(** [render_query_display]: the markup. *)
Definition query_display (query : string) : string :=
  "
        <div class=" +:+
  dq +:+
  "query-box" +:+
  dq +:+
  ">
            <h4 style=" +:+
  dq +:+
  "color: #1e40af; margin: 0 0 10px 0;" +:+
  dq +:+
  ">Generated Query:</h4>
            <code style=" +:+
  dq +:+
  "color: #374151; background: #ffffff; padding: 10px; display: block; border-radius: 6px; font-family: 'Courier New', monospace; font-size: 14px; line-height: 1.4; white-space: pre-wrap;" +:+
  dq +:+
  ">" +:+
  query +:+
  "</code>
        </div>
        ".

(** [render_insight_box]: the markup. *)
Definition insight_box (title content : string) : string :=
  "
        <div class=" +:+
  dq +:+
  "insight-box" +:+
  dq +:+
  ">
            <h4>" +:+
  title +:+
  "</h4>
            <p style=" +:+
  dq +:+
  "margin: 0; color: #000000;" +:+
  dq +:+
  ">" +:+
  content +:+
  "</p>
        </div>
        ".

(** [render_footer]: the markup. *)
Definition footer : string :=
  "
        <div class=" +:+
  dq +:+
  "footer" +:+
  dq +:+
  ">
            <p>Powered by <strong>CloudProbe</strong> - Intelligent GCP Analysis</p>
            <p style=" +:+
  dq +:+
  "font-size: 0.8rem; color: #9ca3af;" +:+
  dq +:+
  ">
                🚀 AI-Powered • ⚡ Real-time Analysis • 📊 Smart Insights
            </p>
        </div>
        ".

Definition render_status_badge (status : string) (is_success : bool) : P unit :=
  draw (St_markdown (status_badge status is_success) true).

Definition render_metric_card (title value description : string) : P unit :=
  draw (St_markdown (metric_card title value description) true).

Definition render_query_display (query : string) : P unit :=
  draw (St_markdown (query_display query) true).

Definition render_insight_box (title content : string) : P unit :=
  draw (St_markdown (insight_box title content) true).

Definition render_footer : P unit := draw (St_markdown footer true).

Definition show_status (message : string) (success : bool) : P unit :=
  render_status_badge message success.

(** [show_metric], called by [main] without a description. *)
Definition show_metric (title value : string) : P unit :=
  render_metric_card title value "".

Definition show_query (query : string) : P unit := render_query_display query.

Definition show_insight (title content : string) : P unit :=
  render_insight_box title content.

(** *** [main] *)

Section Page.

Variable svc : Services.

#[local] Open Scope page_scope.

Definition example_questions : list string :=
  [ "How many Dataflow jobs failed today?";
    "What was the cost incurred in the last 24 hours?";
    "Show me all ERROR level logs from today";
    "How many Cloud Function invocations failed this week?";
    "What are the most common errors in my GKE clusters?";
    "Show me billing-related logs from today" ].

(** The text under [How to Use]. *)
Definition how_to_use : string :=
  "
        1. **Get your GCP Service Account Key:**
           - Go to the Google Cloud Console
           - Navigate to IAM & Admin > Service Accounts
           - Create a new service account or use an existing one
           - Grant it the " +:+
  dq +:+
  "Logging Viewer" +:+
  dq +:+
  " role
           - Download the JSON key file
        
        2. **Get your Gemini API Key:**
           - Go to Google AI Studio
           - Create a new API key
           - Copy the key
        
        3. **Paste the credentials** in the sidebar
        
        4. **Ask questions** like:
           - " +:+
  dq +:+
  "How many Dataflow jobs failed today?" +:+
  dq +:+
  "
           - " +:+
  dq +:+
  "What errors occurred in my Cloud Functions?" +:+
  dq +:+
  "
           - " +:+
  dq +:+
  "Show me cost-related logs from this week" +:+
  dq +:+
  "
        ".

(** [bool(s)] for a string. *)
Definition nonempty (s : string) : bool := negb (String.eqb s "").

(** [sum(1 for r in results if r.get('severity') == 'ERROR')] *)
Definition error_count (results : list pydict) : nat :=
  length (List.filter
            (fun r => py_eq (default PyNone (dict_find (PyStr "severity") r))
                            (PyStr "ERROR"))
            results).

(** [set(values)]: the distinct values in the order they are first met;
    [seen] are those met so far. *)
Fixpoint py_set (values seen : list pyval) : exn + list pyval :=
  match values with
  | [] => inr seen
  | v :: rest =>
      if py_hashable v
      then py_set rest (if existsb (py_eq v) seen then seen else seen ++ [v])
      else inl (TypeError_unhashable v)
  end.

(** [len(set(r.get('resource_type', '') for r in results))] *)
Definition unique_resources (results : list pydict) : exn + nat :=
  check distinct <-
    py_set (map (fun r => default (PyStr "") (dict_find (PyStr "resource_type") r))
                results) [];
  inr (length distinct).

(** The loop over [enumerate(results[:10])], from index [i] on; [total] is
    [len(results)]. *)
Fixpoint show_raw_results (i : nat) (total : nat) (shown : list pydict) : P unit :=
  match shown with
  | [] => pret tt
  | result :: rest =>
      exec draw (St_json (PyDict result));
      exec (if (Z.of_nat i <? Z.of_nat total - 1)%Z then draw St_divider else pret tt);
      show_raw_results (S i) total rest
  end.

(** The branch [if results:], lines 309 to 334. *)
Definition show_results (results : list pydict)
    (user_question gemini_api_key : string) : P unit :=
  exec draw (St_subheader "Query Results");
  exec draw (St_columns (PyInt 3));
  exec show_metric "Total Entries" (py_str svc (PyInt (Z.of_nat (length results))));
  exec show_metric "Error Entries"
                   (py_str svc (PyInt (Z.of_nat (error_count results))));
  do unique <- in_world (lift (unique_resources results));
  exec show_metric "Resource Types" (py_str svc (PyInt (Z.of_nat unique)));
  exec draw (St_expander "View Raw Results");
  exec show_raw_results 0 (length results) (take 10 results);
  exec draw (St_spinner "Analyzing results...");
  do analysis <- in_world (analyze_results svc results user_question gemini_api_key);
  exec draw (St_subheader "Analysis & Insights");
  show_insight "AI Analysis" analysis.

(** What the button [Analyze with CloudProbe] starts, lines 296 to 338. *)
Definition run_analysis (user_question gemini_api_key : string) : P unit :=
  exec draw (St_spinner "Generating Cloud Logging query...");
  do query_string <-
    in_world (generate_logging_query svc user_question gemini_api_key);
  if nonempty query_string then
    exec draw (St_subheader "Generated Query");
    exec show_query query_string;
    exec draw (St_spinner "Executing query...");
    do results <- in_world (execute_logging_query svc query_string 100);
    match results with
    | _ :: _ => show_results results user_question gemini_api_key
    | [] =>
        draw (St_warning
                "No results found for your query. Try rephrasing your question.")
    end
  else
    in_world (st_error
                "Failed to generate query. Please check your question and try again.").

(** The sidebar button, lines 250 to 257: the value of [credentials_valid]. *)
Definition validate_on_click (inputs : Inputs) : P bool :=
  if nonempty (input_credentials inputs) && nonempty (input_api_key inputs) then
    exec draw (St_sidebar_button "Validate Credentials");
    if clicked_validate inputs then
      do accepted <-
        in_world (validate_and_set_credentials svc (input_credentials inputs));
      if accepted then
        do app <- in_world get_self;
        exec show_status ("✅ Connected to project: "
                          +:+ py_str svc (project_id app)) true;
        pret true
      else
        exec show_status "❌ Invalid credentials" false;
        pret false
    else pret false
  else pret false.

(** The main interface, lines 260 to 338. *)
Definition main_interface (inputs : Inputs) : P unit :=
  do app <- in_world get_self;
  exec (if negb (bool_decide (is_Some (logging_client app)))
           && nonempty (input_credentials inputs)
        then
          do _ <- in_world
                    (validate_and_set_credentials svc (input_credentials inputs));
          pret tt
        else pret tt);
  exec draw (St_header "Ask Your Question");
  exec draw (St_columns (PyList [PyInt 2; PyInt 1]));
  exec draw (St_text_input "Enter your question:");
  exec draw (St_selectbox "Or select an example:" ("" :: example_questions));
  let user_question :=
    if nonempty (input_example inputs) then input_example inputs
    else input_question inputs in
  if nonempty user_question && nonempty (input_api_key inputs) then
    exec draw (St_button "🔍 Analyze with CloudProbe");
    if clicked_analyze inputs
    then run_analysis user_question (input_api_key inputs)
    else pret tt
  else pret tt.

(** [main] *)
Definition main (inputs : Inputs) : P unit :=
  exec draw (St_markdown
    "Ask questions about your GCP resources and get intelligent insights from Cloud Logging data."
    false);
  exec in_world (set_self init);
  exec draw (St_sidebar_header "Configuration");
  exec draw (St_sidebar_subheader "GCP Service Account Key");
  exec draw (St_sidebar_text_area "Paste your GCP Service Account JSON key:");
  exec draw (St_sidebar_text_input "Gemini API Key:");
  do credentials_valid <- validate_on_click inputs;
  exec (if credentials_valid
           || (nonempty (input_credentials inputs) && nonempty (input_api_key inputs))
        then main_interface inputs
        else
          exec draw (St_info "👈 Please provide your GCP Service Account JSON key and Gemini API key in the sidebar to get started.");
          exec draw (St_header "How to Use");
          draw (St_markdown how_to_use false));
  render_footer.

End Page.

(** The calls the loop over the raw results makes, from index [i] on. *)
Fixpoint raw_calls (i total : nat) (shown : list pydict) : list ui_call :=
  match shown with
  | [] => []
  | result :: rest =>
      St_json (PyDict result)
      :: (if (Z.of_nat i <? Z.of_nat total - 1)%Z then [St_divider] else [])
      ++ raw_calls (S i) total rest
  end.

Definition is_json (c : ui_call) : bool :=
  match c with St_json _ => true | _ => false end.

Definition is_divider (c : ui_call) : bool :=
  match c with St_divider => true | _ => false end.

(** The resource type [main] counts a record under. *)
Definition shown_resource_type (r : pydict) : pyval :=
  default (PyStr "") (dict_find (PyStr "resource_type") r).

(** The statement [m] makes one call, [st.markdown] with
    [unsafe_allow_html=True], on a markup in which [text] occurs as it is;
    it returns and leaves the world alone. *)
Definition draws_unescaped (m : P unit) (text : string) : Prop :=
  forall p, exists html,
    m p = (inr tt, {| page_world := page_world p;
                      display := display p ++ [St_markdown html true] |})
    /\ str_contains text html = true.

(** The world of a run once [main] has made its app object. *)
Definition new_app (w : world) : world :=
  {| self := init; genai_api_key := genai_api_key w;
     files := files w; trace := trace w |}.

(** The calls of [main] down to the button of the sidebar, which is drawn
    when both inputs are given. *)
Definition sidebar_calls : list ui_call :=
  [ St_markdown
      "Ask questions about your GCP resources and get intelligent insights from Cloud Logging data."
      false;
    St_sidebar_header "Configuration";
    St_sidebar_subheader "GCP Service Account Key";
    St_sidebar_text_area "Paste your GCP Service Account JSON key:";
    St_sidebar_text_input "Gemini API Key:";
    St_sidebar_button "Validate Credentials" ].

(** The badge a click on that button ends with. *)
Definition click_badge (svc : Services) (accepted : bool) (w : world) : ui_call :=
  St_markdown
    (status_badge
       (if accepted
        then "✅ Connected to project: " +:+ py_str svc (project_id (self w))
        else "❌ Invalid credentials")
       accepted)
    true.

(** The calls of the main interface down to the two inputs of the
    question. *)
Definition question_calls : list ui_call :=
  [ St_header "Ask Your Question";
    St_columns (PyList [PyInt 2; PyInt 1]);
    St_text_input "Enter your question:";
    St_selectbox "Or select an example:" ("" :: example_questions) ].

(** The end of a run of [main] that has reached the main interface, lines
    291 to 338 and 367: the button of the analysis, what a click on it
    starts, and the footer. *)
Definition analysis_and_footer (svc : Services) (inputs : Inputs) : P unit :=
  (let user_question :=
     if nonempty (input_example inputs) then input_example inputs
     else input_question inputs in
   exec (if nonempty user_question && nonempty (input_api_key inputs) then
           exec draw (St_button "🔍 Analyze with CloudProbe");
           if clicked_analyze inputs
           then run_analysis svc user_question (input_api_key inputs)
           else pret tt
         else pret tt);
   render_footer)%page.

(** ** Services in trouble

    The sample services with one call changed each. *)

Module Trouble.

Definition quota : exn := ServiceError "ResourceExhausted" "429 Quota exceeded".

Definition disk : exn := ServiceError "OSError" "[Errno 28] No space left on device".

Definition denied : exn :=
  ServiceError "PermissionDenied" "403 Permission denied on resource project".

(** The sample services with the log service, [open] and [logging.Client]
    replaced. *)
Definition change (fetch : Client -> string -> Z -> exn + list LogEntry)
    (open_file : string -> option exn)
    (make_client : Credentials -> pyval -> option exn)
    (answer : exn + Response) : Services :=
  {| json_loads := json_loads Sample.svc;
     json_dumps := json_dumps Sample.svc;
     py_str := py_str Sample.svc;
     str_strip := str_strip Sample.svc;
     exn_str := exn_str Sample.svc;
     from_service_account_info := from_service_account_info Sample.svc;
     logging_Client := make_client;
     list_entries := fetch;
     genai_configure := genai_configure Sample.svc;
     genai_GenerativeModel := genai_GenerativeModel Sample.svc;
     generate_content := fun _ _ _ => answer;
     open_write := open_file;
     csv_writerow := csv_writerow Sample.svc |}.

Definition answer : exn + Response := inr {| text := inr " severity>=ERROR " |}.

(** The log service raises. *)
Definition no_fetch : Services :=
  change (fun _ _ _ => inl quota) (fun _ => None) (fun _ _ => None) answer.

(** The log service finds nothing. *)
Definition nothing_found : Services :=
  change (fun _ _ _ => inr []) (fun _ => None) (fun _ _ => None) answer.

(** The dump cannot be opened. *)
Definition no_disk : Services :=
  change (list_entries Sample.svc) (fun _ => Some disk) (fun _ _ => None) answer.

(** [logging.Client] raises. *)
Definition no_client : Services :=
  change (list_entries Sample.svc) (fun _ => None) (fun _ _ => Some denied) answer.

(** What [logging.Client] raises on a project that is not a string. *)
Definition not_a_string : exn := ServiceError "ValueError" "Project must be a string".

(** [logging.Client] refuses a project that is not a string. *)
Definition strict_client : Services :=
  change (list_entries Sample.svc) (fun _ => None)
         (fun _ project => if is_str project then None else Some not_a_string)
         answer.

(** The generative service answers with blanks. *)
Definition blank_answer : Services :=
  change (list_entries Sample.svc) (fun _ => None) (fun _ _ => None)
         (inr {| text := inr "  " |}).

(** A connected instance on an empty page. *)
Definition connected_page : page :=
  {| page_world := Sample.connected; display := [] |}.


(** A run in which a text that is not JSON is submitted by a click. *)
Definition rejected_click : Inputs :=
  {| input_credentials := "{"; input_api_key := "key";
     clicked_validate := true; input_question := "";
     input_example := ""; clicked_analyze := false |}.

(** A record whose resource type is a list. *)
Definition odd_record : pydict :=
  [ (PyStr "timestamp", PyStr "2024-01-01T12:00:00+00:00");
    (PyStr "resource_type", PyList [PyStr "gce_instance"]) ].

End Trouble.

(** * Properties *)

Section Properties.

Variable svc : Services.

Ltac run :=
  unfold try_except, bind, ret, raise, lift, guard_call, st_error, emit,
    get_self, set_self, get_genai_api_key, set_genai_api_key, set_file,
    append_file, after in *.

Lemma errors_app (t1 t2 : list event) :
  errors (t1 ++ t2) = errors t1 ++ errors t2.
Proof.
  induction t1 as [|ev t1 IH]; [done|].
  destruct ev; cbn; by rewrite ?IH.
Qed.

(** *** Empty results *)

(** C3: on an empty result list [analyze_results] returns the fixed text and
    leaves the world as it found it, so that no call to the generative
    service, and no call at all, is made; the question and the key play no
    part. *)
Theorem analyze_results_empty (user_question gemini_api_key : string) (w : world) :
  analyze_results svc [] user_question gemini_api_key w
    = (inr "No results found for your query.", w)
  /\ trace (snd (analyze_results svc [] user_question gemini_api_key w)) = trace w.
Proof.
  unfold analyze_results, analyze_results_body. run. split; reflexivity.
Qed.

(** *** The uninitialised client *)

(** C9: without a logging client, [execute_logging_query] reports the error
    and returns the empty list; the only event is the report, so the log
    service is not queried and no file is opened, and the files are the same. *)
Theorem execute_without_client (query_string : string) (max_results : Z) (w : world) :
  logging_client (self w) = None ->
  execute_logging_query svc query_string max_results w
    = (inr [], after w [St_error "Logging client not initialized"])
  /\ files (snd (execute_logging_query svc query_string max_results w)) = files w.
Proof.
  intros Hnone.
  unfold execute_logging_query, execute_logging_query_body. run.
  cbn. rewrite Hnone. cbn. split; reflexivity.
Qed.

(** *** The required fields *)

(** The loop over the required fields, run on a JSON object. *)
Lemma first_missing_object (fields : list string) (d : pydict) :
  match first_missing fields (PyDict d) with
  | inr None => Forall (has_field d) fields
  | inr (Some f) =>
      exists before rest, fields = before ++ f :: rest
        /\ Forall (has_field d) before /\ dict_find (PyStr f) d = None
  | inl _ => False
  end.
Proof.
  induction fields as [|f fields IH]; cbn.
  - constructor.
  - case_bool_decide as Hf; cbn.
    + destruct (first_missing fields (PyDict d)) as [e|[g|]]; [done| |].
      * destruct IH as (before & rest & -> & Hbefore & Hg).
        exists (f :: before), rest. repeat split; [by constructor | done].
      * by constructor.
    + exists [], fields. repeat split; [constructor|].
      destruct (dict_find (PyStr f) d) eqn:E; [|done].
      exfalso. apply Hf. by eexists.
Qed.

(** The [try] block of [validate_and_set_credentials], path by path. *)
Lemma validate_body_paths (credentials_json : string) (w : world) :
  validate_and_set_credentials_body svc credentials_json w =
  match json_loads svc credentials_json with
  | inl e => (inl e, w)
  | inr data =>
      match first_missing required_fields data with
      | inl e => (inl e, w)
      | inr (Some field) =>
          (inr false, after w [St_error ("Missing required field: " +:+ field)])
      | inr None =>
          let creds := {| service_account_info := data |} in
          let called := trace w ++ [Call_from_service_account_info data] in
          let with_creds :=
            {| logging_client := logging_client (self w);
               credentials := Some creds;
               project_id := project_id (self w) |} in
          let world_of a t :=
            {| self := a; genai_api_key := genai_api_key w;
               files := files w; trace := t |} in
          match from_service_account_info svc data with
          | Some e => (inl e, world_of (self w) called)
          | None =>
              match py_getitem data "project_id" with
              | inl e => (inl e, world_of with_creds called)
              | inr project =>
                  let with_project :=
                    {| logging_client := logging_client (self w);
                       credentials := Some creds;
                       project_id := project |} in
                  let called' := called ++ [Call_logging_Client creds project] in
                  match logging_Client svc creds project with
                  | Some e => (inl e, world_of with_project called')
                  | None =>
                      (inr true,
                       world_of {| logging_client :=
                                     Some {| client_credentials := creds;
                                             client_project := project |};
                                   credentials := Some creds;
                                   project_id := project |} called')
                  end
              end
          end
      end
  end.
Proof.
  unfold validate_and_set_credentials_body. run.
  destruct (json_loads svc credentials_json) as [e|data]; [reflexivity|].
  destruct (first_missing required_fields data) as [e|[f|]]; try reflexivity.
  cbn -[first_missing py_getitem].
  destruct (from_service_account_info svc data) as [e|]; [reflexivity|].
  cbn -[first_missing py_getitem].
  destruct (py_getitem data "project_id") as [e|project]; [reflexivity|].
  cbn -[first_missing py_getitem].
  destruct (logging_Client svc _ project) as [e|]; reflexivity.
Qed.

(** The [except] clauses report one message and return [False]. *)
Lemma validate_except_reports (e : exn) (w : world) :
  exists msg, validate_and_set_credentials_except svc e w
              = (inr false, after w [St_error msg]).
Proof.
  unfold validate_and_set_credentials_except. run.
  destruct (is_JSONDecodeError e); eexists; reflexivity.
Qed.

(** C10: when [json.loads] raises, as it does on a text that is not JSON,
    or the test of the required fields does not pass (a field is missing, or
    the test itself raises), the method returns [False] and the three
    attributes keep their values. *)
Theorem validate_failure_keeps_state (credentials_json : string) (w : world) :
  (exists e, json_loads svc credentials_json = inl e)
  \/ (exists data, json_loads svc credentials_json = inr data
                   /\ first_missing required_fields data <> inr None) ->
  fst (validate_and_set_credentials svc credentials_json w) = inr false
  /\ self (snd (validate_and_set_credentials svc credentials_json w)) = self w.
Proof.
  intros Hfail.
  unfold validate_and_set_credentials, try_except.
  rewrite validate_body_paths.
  destruct Hfail as [[e ->] | (data & -> & Hcheck)].
  - destruct (validate_except_reports e w) as [msg ->]. done.
  - destruct (first_missing required_fields data) as [e|[f|]]; [|done|done].
    destruct (validate_except_reports e w) as [msg ->]. done.
Qed.

(** C2: when the text parses as a JSON object that lacks a required field,
    the method returns [False] and its one report names the first required
    field, in the order of [required_fields], that the object lacks. *)
Theorem missing_field_reported (credentials_json : string) (d : pydict) (w : world) :
  json_loads svc credentials_json = inr (PyDict d) ->
  (exists f, f ∈ required_fields /\ ~ has_field d f) ->
  exists f before rest,
    required_fields = before ++ f :: rest
    /\ Forall (has_field d) before
    /\ ~ has_field d f
    /\ validate_and_set_credentials svc credentials_json w
       = (inr false, after w [St_error ("Missing required field: " +:+ f)]).
Proof.
  intros Hloads (g & Hg & Hmissing).
  unfold validate_and_set_credentials, try_except.
  rewrite validate_body_paths, Hloads.
  pose proof (first_missing_object required_fields d) as Hloop.
  destruct (first_missing required_fields (PyDict d)) as [e|[f|]]; [done| |].
  - destruct Hloop as (before & rest & Heq & Hbefore & Hf).
    exists f, before, rest. repeat split; try done.
    unfold has_field. rewrite Hf. by intros [? ?].
  - exfalso. apply Hmissing.
    rewrite Forall_forall in Hloop. by apply Hloop.
Qed.

(** C4: when the text parses as a JSON object with the five required
    fields and neither of the two SDK calls the method makes raises, that is
    [from_service_account_info] on the object and [logging.Client] on these
    credentials with the project found under [project_id], the method returns
    [True]; the project is the value under [project_id], the credentials are
    those built from the object, the client is built from both, and nothing
    is reported.  Nothing is assumed of [logging.Client] on another
    project. *)
Theorem validate_accepts (credentials_json : string) (d : pydict) (w : world) :
  json_loads svc credentials_json = inr (PyDict d) ->
  Forall (has_field d) required_fields ->
  from_service_account_info svc (PyDict d) = None ->
  (forall project,
     dict_find (PyStr "project_id") d = Some project ->
     logging_Client svc {| service_account_info := PyDict d |} project = None) ->
  exists project w',
    dict_find (PyStr "project_id") d = Some project
    /\ validate_and_set_credentials svc credentials_json w = (inr true, w')
    /\ project_id (self w') = project
    /\ credentials (self w') = Some {| service_account_info := PyDict d |}
    /\ logging_client (self w')
       = Some {| client_credentials := {| service_account_info := PyDict d |};
                 client_project := project |}
    /\ errors (trace w') = errors (trace w).
Proof.
  intros Hloads Hfields Hcreds Hclient.
  assert (has_field d "project_id") as [project Hproject].
  { rewrite Forall_forall in Hfields. apply Hfields. set_solver. }
  exists project. eexists. split; [done|].
  unfold validate_and_set_credentials, try_except.
  rewrite validate_body_paths, Hloads.
  pose proof (first_missing_object required_fields d) as Hloop.
  destruct (first_missing required_fields (PyDict d)) as [e|[f|]]; [done| |].
  - destruct Hloop as (before & rest & Heq & _ & Hf).
    assert (has_field d f) as [? Hsome]; [|congruence].
    rewrite Forall_forall in Hfields. apply Hfields.
    rewrite Heq. set_solver.
  - cbn -[required_fields]. rewrite Hcreds. cbn -[required_fields].
    rewrite Hproject, (Hclient project Hproject). cbn.
    repeat split.
    cbn [trace]. rewrite !errors_app. cbn. by rewrite !app_nil_r.
Qed.

(** C8: a text is accepted only if it parses as a JSON object that has the
    five required fields. *)
Theorem validate_true_has_fields (credentials_json : string) (w : world) :
  fst (validate_and_set_credentials svc credentials_json w) = inr true ->
  exists d, json_loads svc credentials_json = inr (PyDict d)
            /\ Forall (has_field d) required_fields.
Proof.
  unfold validate_and_set_credentials, try_except.
  rewrite validate_body_paths.
  destruct (json_loads svc credentials_json) as [e|data].
  1: { destruct (validate_except_reports e w) as [msg ->]. done. }
  destruct (first_missing required_fields data) as [e|[f|]] eqn:Hloop.
  1: { destruct (validate_except_reports e w) as [msg ->]. done. }
  1: done.
  cbn -[required_fields].
  destruct (from_service_account_info svc data) as [e|].
  1: { destruct (validate_except_reports e
         {| self := self w; genai_api_key := genai_api_key w; files := files w;
            trace := trace w ++ [Call_from_service_account_info data] |})
         as [msg ->]. done. }
  destruct (py_getitem data "project_id") as [e|project] eqn:Hitem.
  1: { match goal with |- context [validate_and_set_credentials_except svc e ?w'] =>
         destruct (validate_except_reports e w') as [msg ->] end. done. }
  intros _.
  destruct data as [| | | | |l|d]; try discriminate Hitem.
  exists d. split; [done|].
  pose proof (first_missing_object required_fields d) as Hspec.
  by rewrite Hloop in Hspec.
Qed.

(** *** Failure paths *)

(** What the [try] block of [validate_and_set_credentials] reports: one
    message when it returns [False], none when it returns [True] or raises. *)
Lemma validate_body_reports (credentials_json : string) (w : world) :
  match validate_and_set_credentials_body svc credentials_json w with
  | (inl _, w1) | (inr true, w1) => errors (trace w1) = errors (trace w)
  | (inr false, w1) => exists msg, errors (trace w1) = errors (trace w) ++ [msg]
  end.
Proof.
  rewrite validate_body_paths.
  destruct (json_loads svc credentials_json) as [e|data]; [done|].
  destruct (first_missing required_fields data) as [e|[f|]]; [done| |].
  { eexists. cbn. by rewrite errors_app. }
  cbn zeta.
  destruct (from_service_account_info svc data) as [e|];
    [cbn; by rewrite errors_app, app_nil_r|].
  destruct (py_getitem data "project_id") as [e|project];
    [cbn; by rewrite errors_app, app_nil_r|].
  destruct (logging_Client svc _ project) as [e|];
    cbn; by rewrite !errors_app, !app_nil_r.
Qed.

(** [genai_model] raises or returns, and reports nothing either way. *)
Lemma genai_model_quiet (gemini_api_key name : string) (w : world) :
  errors (trace (snd (genai_model svc gemini_api_key name w))) = errors (trace w).
Proof.
  unfold genai_model. run.
  destruct (genai_configure svc gemini_api_key); cbn;
    [by rewrite errors_app, app_nil_r|].
  destruct (genai_GenerativeModel svc name); cbn;
    by rewrite !errors_app, !app_nil_r.
Qed.

Lemma model_generate_content_quiet (model prompt : string) (w : world) :
  errors (trace (snd (model_generate_content svc model prompt w))) = errors (trace w).
Proof.
  unfold model_generate_content. run. cbn.
  by rewrite errors_app, app_nil_r.
Qed.

(** The [try] block of [generate_logging_query] reports nothing. *)
Lemma generate_body_quiet (user_question gemini_api_key : string) (w : world) :
  errors (trace (snd (generate_logging_query_body svc user_question gemini_api_key w)))
  = errors (trace w).
Proof.
  unfold generate_logging_query_body, bind.
  pose proof (genai_model_quiet gemini_api_key "gemini-1.5-flash" w) as Hmodel.
  destruct (genai_model svc gemini_api_key "gemini-1.5-flash" w) as [[e|model] w1];
    [done|].
  pose proof (model_generate_content_quiet model (query_prompt user_question) w1)
    as Hcall.
  destruct (model_generate_content svc model (query_prompt user_question) w1)
    as [[e|response] w2]; cbn in *; [congruence|].
  unfold lift, ret. destruct (text response); cbn; congruence.
Qed.

(** The [try] block of [analyze_results] reports nothing. *)
Lemma analyze_body_quiet (results : list pydict)
    (user_question gemini_api_key : string) (w : world) :
  errors (trace (snd (analyze_results_body svc results user_question gemini_api_key w)))
  = errors (trace w).
Proof.
  unfold analyze_results_body, bind.
  destruct results as [|r results]; [done|].
  pose proof (genai_model_quiet gemini_api_key "gemini-1.5-flash" w) as Hmodel.
  destruct (genai_model svc gemini_api_key "gemini-1.5-flash" w) as [[e|model] w1];
    [done|].
  unfold lift at 1.
  destruct (results_summary (r :: results)) as [e|summary]; [done|].
  match goal with |- context [model_generate_content svc model ?p w1] =>
    pose proof (model_generate_content_quiet model p w1) as Hcall;
    destruct (model_generate_content svc model p w1) as [[e|response] w2]
  end; cbn in *; congruence.
Qed.

(** C1: none of the three methods raises, and each reports exactly when it
    fails.  [validate_and_set_credentials] returns [False] with exactly one
    new report, or [True] with none, and returns [False] whenever its [try]
    block raises.  When the [try] block of [generate_logging_query] raises,
    the method reports the exception and returns the empty string; when the
    [try] block of [analyze_results] raises, the method reports the exception
    and returns the text [Error analyzing results].  A [try] block of the
    last two that returns reports nothing. *)
Theorem failure_paths (w : world) :
  (forall credentials_json,
     exists b w',
       validate_and_set_credentials svc credentials_json w = (inr b, w')
       /\ (if b then errors (trace w') = errors (trace w)
           else exists msg, errors (trace w') = errors (trace w) ++ [msg])
       /\ (forall e w1,
             validate_and_set_credentials_body svc credentials_json w = (inl e, w1)
             -> b = false))
  /\ (forall user_question gemini_api_key,
        match generate_logging_query_body svc user_question gemini_api_key w with
        | (inl e, w1) =>
            generate_logging_query svc user_question gemini_api_key w
            = (inr "", after w1 [St_error ("Error generating query with Gemini: "
                                            +:+ exn_str svc e)])
            /\ errors (trace w1) = errors (trace w)
        | (inr query, w1) =>
            generate_logging_query svc user_question gemini_api_key w
            = (inr query, w1)
            /\ errors (trace w1) = errors (trace w)
        end)
  /\ (forall results user_question gemini_api_key,
        match analyze_results_body svc results user_question gemini_api_key w with
        | (inl e, w1) =>
            analyze_results svc results user_question gemini_api_key w
            = (inr "Error analyzing results",
               after w1 [St_error ("Error analyzing results: " +:+ exn_str svc e)])
            /\ errors (trace w1) = errors (trace w)
        | (inr analysis, w1) =>
            analyze_results svc results user_question gemini_api_key w
            = (inr analysis, w1)
            /\ errors (trace w1) = errors (trace w)
        end).
Proof.
  split; [|split].
  - intros credentials_json.
    pose proof (validate_body_reports credentials_json w) as Hbody.
    unfold validate_and_set_credentials, try_except.
    destruct (validate_and_set_credentials_body svc credentials_json w)
      as [[e|[|]] w1].
    + destruct (validate_except_reports e w1) as [msg ->].
      exists false. eexists. split; [done|]. split; [|done].
      exists msg. cbn. by rewrite errors_app, Hbody.
    + exists true, w1. by repeat split.
    + exists false, w1. by repeat split.
  - intros user_question gemini_api_key.
    pose proof (generate_body_quiet user_question gemini_api_key w) as Hquiet.
    unfold generate_logging_query, try_except.
    destruct (generate_logging_query_body svc user_question gemini_api_key w)
      as [[e|query] w1]; done.
  - intros results user_question gemini_api_key.
    pose proof (analyze_body_quiet results user_question gemini_api_key w) as Hquiet.
    unfold analyze_results, try_except.
    destruct (analyze_results_body svc results user_question gemini_api_key w)
      as [[e|analysis] w1]; done.
Qed.

(** *** The log-entry record *)



(** *** The csv dump *)

Lemma str_app_assoc (a b c : string) : (a +:+ b) +:+ c = a +:+ b +:+ c.
Proof.
  induction a as [|x a IH]; [done|].
  change (String x ((a +:+ b) +:+ c) = String x (a +:+ b +:+ c)).
  by rewrite IH.
Qed.

Lemma str_app_nil_r (a : string) : a +:+ "" = a.
Proof.
  induction a as [|x a IH]; [done|].
  change (String x (a +:+ "") = String x a).
  by rewrite IH.
Qed.

(** Every record has the keys of the first one, so that [_dict_to_list]
    finds no extra field and lists the values in the order of the record. *)
Lemma dict_to_list_entry (first entry : LogEntry) :
  dict_to_list (dict_keys (entry_dict svc first)) (entry_dict svc entry)
  = inr (snd <$> entry_dict svc entry).
Proof. reflexivity. Qed.

Lemma writerow_entry (path content : string) (first entry : LogEntry) (w : world) :
  files w !! path = Some content ->
  writerow svc path (dict_keys (entry_dict svc first)) (entry_dict svc entry) w
  = (inr tt,
     {| self := self w; genai_api_key := genai_api_key w;
        files := <[path := content +:+ entry_row svc entry]> (files w);
        trace := trace w |}).
Proof.
  intros Hfile. unfold writerow, bind, lift, append_file.
  rewrite dict_to_list_entry, Hfile. reflexivity.
Qed.

Lemma writerows_entries (path : string) (first : LogEntry) (entries : list LogEntry) :
  forall (content : string) (w : world),
    files w !! path = Some content ->
    writerows svc path (dict_keys (entry_dict svc first))
              (entry_dict svc <$> entries) w
    = (inr tt,
       {| self := self w; genai_api_key := genai_api_key w;
          files := <[path := content
                             +:+ foldr (fun entry text => entry_row svc entry +:+ text)
                                       "" entries]> (files w);
          trace := trace w |}).
Proof.
  induction entries as [|entry entries IH]; intros content w Hfile.
  - cbn. unfold ret. rewrite str_app_nil_r, insert_id by done. by destruct w.
  - cbn [fmap list_fmap writerows foldr]. unfold bind.
    rewrite (writerow_entry path content first entry w Hfile).
    rewrite (IH (content +:+ entry_row svc entry)) by apply lookup_insert_eq.
    cbn. by rewrite insert_insert_eq, str_app_assoc.
Qed.

Lemma writeheader_entry (path content : string) (first : LogEntry) (w : world) :
  files w !! path = Some content ->
  writeheader svc path (dict_keys (entry_dict svc first)) w
  = (inr tt,
     {| self := self w; genai_api_key := genai_api_key w;
        files := <[path := content +:+ csv_writerow svc entry_fields]> (files w);
        trace := trace w |}).
Proof.
  intros Hfile. unfold writeheader, writerow, bind, lift, append_file.
  change (dict_to_list _ _) with (@inr exn _ (PyStr <$> entry_fields)).
  by rewrite Hfile.
Qed.

Lemma bind_returns {A B} (m : M A) (k : A -> M B) (w w' : world) (a : A) :
  m w = (inr a, w') -> bind m k w = k a w'.
Proof. intros Hm. unfold bind. by rewrite Hm. Qed.

(** The save step truncates the file and writes the dump. *)
Lemma save_to_csv_entries (path : string) (entries : list LogEntry) (w : world) :
  open_write svc path = None ->
  save_to_csv svc path (entry_dict svc <$> entries) w
  = (inr tt,
     {| self := self w; genai_api_key := genai_api_key w;
        files := <[path := csv_dump svc entries]> (files w);
        trace := trace w ++ [Call_open_write path] |}).
Proof.
  intros Hopen. unfold save_to_csv.
  erewrite bind_returns; cycle 1.
  { unfold open_w, bind, emit, guard_call, set_file. rewrite Hopen. reflexivity. }
  destruct entries as [|first entries]; [reflexivity|].
  cbn [fmap list_fmap self genai_api_key files trace].
  erewrite bind_returns; cycle 1.
  { apply writeheader_entry. cbn [files]. apply lookup_insert_eq. }
  etrans.
  { apply (writerows_entries path first (first :: entries)).
    cbn [files]. apply lookup_insert_eq. }
  cbn [self genai_api_key files trace csv_dump].
  by rewrite !insert_insert_eq.
Qed.


(** *** The results summary *)

Lemma ltb_le (a b : string) : String.ltb a b = true -> String.le a b.
Proof.
  unfold String.le, String.ltb, String.leb.
  by destruct (String.compare a b).
Qed.

Lemma not_ltb_le (a b : string) : String.ltb a b = false -> String.le b a.
Proof.
  unfold String.le, String.ltb, String.leb.
  rewrite (String.compare_antisym b a).
  by destruct (String.compare a b).
Qed.

(** [str_pick] returns one of its arguments, the lesser for [Less] and the
    greater for [Greater]. *)
Lemma str_pick_cases (op : comparison_op) (cur item : string) :
  (str_pick op cur item = cur \/ str_pick op cur item = item)
  /\ match op with
     | Less => String.le (str_pick op cur item) cur
               /\ String.le (str_pick op cur item) item
     | Greater => String.le cur (str_pick op cur item)
                  /\ String.le item (str_pick op cur item)
     end.
Proof.
  unfold str_pick.
  destruct op.
  - destruct (String.ltb item cur) eqn:E; (split; [auto|]); split;
      try reflexivity; [by apply ltb_le | by apply not_ltb_le].
  - destruct (String.ltb cur item) eqn:E; (split; [auto|]); split;
      try reflexivity; [by apply ltb_le | by apply not_ltb_le].
Qed.

(** Folding [str_pick] over a list yields a member that bounds the list. *)
Lemma foldl_str_pick (op : comparison_op) (ts : list string) :
  forall cur,
    foldl (str_pick op) cur ts ∈ cur :: ts
    /\ forall t, t ∈ cur :: ts ->
         match op with
         | Less => String.le (foldl (str_pick op) cur ts) t
         | Greater => String.le t (foldl (str_pick op) cur ts)
         end.
Proof.
  induction ts as [|item ts IH]; intros cur.
  - cbn. split; [by left|]. intros t ->%list_elem_of_singleton.
    by destruct op.
  - cbn [foldl].
    destruct (IH (str_pick op cur item)) as [Hmem Hbound].
    destruct (str_pick_cases op cur item) as [Hpick Horder].
    split.
    + apply elem_of_cons in Hmem as [->|Hmem]; [|by do 2 right].
      destruct Hpick as [-> | ->]; [by left | by right; left].
    + intros t Ht.
      pose proof (Hbound (str_pick op cur item) (list_elem_of_here _ _)) as Hbest.
      apply elem_of_cons in Ht as [->|[->|Ht]%elem_of_cons].
      * destruct op; destruct Horder; by etrans.
      * destruct op; destruct Horder; by etrans.
      * apply Hbound. by right.
Qed.

(** One step of the generator on a record whose timestamp is a string. *)
Lemma select_timestamp_step (op : comparison_op) (r : pydict) (rest : list pydict)
    (t : string) (cur : option pyval) :
  timestamp_of r = Some t ->
  select_timestamp (py_compare op) cur (r :: rest)
  = if String.eqb t "" then select_timestamp (py_compare op) cur rest
    else match cur with
         | None => select_timestamp (py_compare op) (Some (PyStr t)) rest
         | Some c =>
             check b <- py_compare op (PyStr t) c;
             select_timestamp (py_compare op) (Some (if b then PyStr t else c)) rest
         end.
Proof.
  unfold timestamp_of. intros Ht.
  destruct (dict_find (PyStr "timestamp") r) as [[| | | |t'| |]|] eqn:Hfind;
    try discriminate Ht.
  injection Ht as ->.
  cbn [select_timestamp py_getitem]. rewrite Hfind.
  cbn [and_then py_truthy]. by destruct (String.eqb t "").
Qed.

Lemma timestamps_cons (r : pydict) (rest : list pydict) (t : string) :
  timestamp_of r = Some t ->
  timestamps (r :: rest)
  = if String.eqb t "" then timestamps rest else t :: timestamps rest.
Proof.
  intros Ht. unfold timestamps. cbn [omap list_omap]. rewrite Ht.
  cbn [List.filter]. by destruct (String.eqb t "").
Qed.

(** On records whose timestamps are strings, [min] and [max] of the
    generator fold [str_pick] over the non-empty timestamps. *)
Lemma select_timestamp_from (op : comparison_op) (results : list pydict) :
  Forall (fun r => is_Some (timestamp_of r)) results ->
  forall c,
    select_timestamp (py_compare op) (Some (PyStr c)) results
    = inr (PyStr (foldl (str_pick op) c (timestamps results))).
Proof.
  induction 1 as [|r rest [t Ht] _ IH]; intros c; [done|].
  rewrite (select_timestamp_step op r rest t _ Ht), (timestamps_cons r rest t Ht).
  destruct (String.eqb t ""); [apply IH|].
  cbn [foldl]. rewrite <- IH. unfold str_pick.
  by destruct op; cbn; destruct (String.ltb _ _).
Qed.

Lemma select_timestamp_first (op : comparison_op) (results : list pydict) :
  Forall (fun r => is_Some (timestamp_of r)) results ->
  select_timestamp (py_compare op) None results
  = match timestamps results with
    | [] => inl ValueError_empty_sequence
    | t :: ts => inr (PyStr (foldl (str_pick op) t ts))
    end.
Proof.
  induction 1 as [|r rest [t Ht] Hrest IH]; [done|].
  rewrite (select_timestamp_step op r rest t _ Ht), (timestamps_cons r rest t Ht).
  destruct (String.eqb t ""); [apply IH|].
  by apply select_timestamp_from.
Qed.

(** One count more under a key that can be hashed is one more in total. *)
Lemma increment_sum (key : pyval) (counts : list (pyval * nat)) :
  py_hashable key = true ->
  exists counts', increment key counts = inr counts'
                  /\ sum_list (snd <$> counts') = S (sum_list (snd <$> counts)).
Proof.
  intros Hkey. unfold increment. rewrite Hkey. eexists. split; [done|].
  induction counts as [|[k v] counts IH]; [done|].
  cbn [dict_set dict_find]. destruct (py_eq key k); cbn in *; lia.
Qed.

Lemma count_entries_sum (results : list pydict) :
  Forall countable_record results ->
  forall sevs types,
    exists sevs' types',
      count_entries results sevs types = inr (sevs', types')
      /\ sum_list (snd <$> sevs') = (sum_list (snd <$> sevs) + length results)%nat
      /\ sum_list (snd <$> types') = (sum_list (snd <$> types) + length results)%nat.
Proof.
  induction 1 as [|r rest [Hsev Htype] _ IH]; intros sevs types.
  - exists sevs, types. cbn. repeat split; lia.
  - cbn [count_entries]. unfold dict_get. cbn [py_hashable and_then].
    destruct (increment_sum _ sevs Hsev) as (sevs1 & -> & Hsevs1).
    destruct (increment_sum _ types Htype) as (types1 & -> & Htypes1).
    cbn [and_then].
    destruct (IH sevs1 types1) as (sevs' & types' & -> & Hsevs' & Htypes').
    exists sevs', types'. cbn [length]. repeat split; lia.
Qed.

(** C7: on a result list whose records carry string timestamps, one of them
    at least non-empty, and hashable severities and resource types, the
    summary is built: [total_entries] is the length of the list, the
    severity counts and the resource-type counts each add up to it, and the
    time range holds the least and the greatest of the non-empty timestamps,
    the first no greater than the second. *)
Theorem results_summary_spec (results : list pydict) :
  Forall (fun r => is_Some (timestamp_of r)) results ->
  timestamps results <> [] ->
  Forall countable_record results ->
  exists summary first last,
    results_summary results = inr summary
    /\ total_entries summary = length results
    /\ sum_list (snd <$> severity_counts summary) = length results
    /\ sum_list (snd <$> resource_types summary) = length results
    /\ time_range summary = {| earliest := PyStr first; latest := PyStr last |}
    /\ first ∈ timestamps results
    /\ last ∈ timestamps results
    /\ (forall t, t ∈ timestamps results ->
                  String.leb first t = true /\ String.leb t last = true)
    /\ String.leb first last = true.
Proof.
  intros Hstamps Hsome Hcount.
  unfold results_summary, py_lt, py_gt.
  rewrite !select_timestamp_first by done.
  destruct (timestamps results) as [|t ts] eqn:Hts; [done|].
  destruct (count_entries_sum results Hcount [] [])
    as (sevs & types & -> & Hsevs & Htypes).
  destruct (foldl_str_pick Less ts t) as [Hmin_mem Hmin].
  destruct (foldl_str_pick Greater ts t) as [Hmax_mem Hmax].
  eexists _, (foldl (str_pick Less) t ts), (foldl (str_pick Greater) t ts).
  cbn [and_then total_entries severity_counts resource_types time_range fst snd].
  repeat split; try done.
  - apply Is_true_true. by apply Hmin.
  - apply Is_true_true. by apply Hmax.
  - apply Is_true_true.
    change (String.le (foldl (str_pick Less) t ts) (foldl (str_pick Greater) t ts)).
    trans t; [apply Hmin | apply Hmax]; by left.
Qed.

(** X10: the summary is what [analyze_results] sends: when the model can be
    set up, the prompt handed to [generate_content] is the one built from the
    summary and the first three records, whatever the service answers. *)
Lemma analyze_results_sends_summary (results : list pydict)
    (user_question gemini_api_key : string) (summary : ResultsSummary) (w : world) :
  results <> [] ->
  genai_configure svc gemini_api_key = None ->
  genai_GenerativeModel svc "gemini-1.5-flash" = None ->
  results_summary results = inr summary ->
  Call_generate_content
    (analysis_prompt svc user_question (summary_value summary)
                     (PyList (PyDict <$> take 3 results)))
  ∈ trace (snd (analyze_results svc results user_question gemini_api_key w)).
Proof.
  intros Hresults Hconfigure Hmodel Hsummary.
  unfold analyze_results, try_except, analyze_results_body.
  destruct results as [|r results]; [done|].
  erewrite bind_returns; cycle 1.
  { unfold genai_model, bind, emit, guard_call, set_genai_api_key.
    rewrite Hconfigure. cbn. rewrite Hmodel. reflexivity. }
  erewrite bind_returns by (unfold lift; by rewrite Hsummary).
  unfold model_generate_content, bind, get_genai_api_key, emit, lift.
  cbn [self genai_api_key files trace].
  destruct (generate_content svc _ _ _) as [e|response].
  - unfold analyze_results_except, bind, st_error, emit, ret. cbn.
    rewrite !elem_of_app, !list_elem_of_singleton. auto.
  - destruct (text response) as [e|analysis].
    + unfold analyze_results_except, bind, st_error, emit, ret. cbn.
      rewrite !elem_of_app, !list_elem_of_singleton. auto.
    + cbn. rewrite !elem_of_app, !list_elem_of_singleton. auto.
Qed.

End Properties.

(** * The properties at work on the sample services *)

(** C1, as the specification words it, fails: a record list whose only
    record has no timestamp makes [min] raise, and the value returned on that
    failure path is a text that is neither empty nor blank. *)
Lemma analyze_failure_is_not_blank :
  let results := entry_dict Sample.svc <$> [Sample.bare_entry] in
  fst (analyze_results_body Sample.svc results "why" "key" Sample.fresh)
    = inl ValueError_empty_sequence
  /\ fst (analyze_results Sample.svc results "why" "key" Sample.fresh)
     = inr "Error analyzing results"
  /\ errors (trace (snd (analyze_results Sample.svc results "why" "key" Sample.fresh)))
     = ["Error analyzing results: min() arg is an empty sequence"]
  /\ Sample.strip "Error analyzing results" <> "".
Proof. repeat split; try reflexivity. discriminate. Qed.

(** C2, as worded, fails: the text [5] parses as JSON and has none of the
    fields, yet the report is the general one, which names no field. *)
Lemma number_names_no_field :
  json_loads Sample.svc "5" = inr (PyInt 5)
  /\ validate_and_set_credentials Sample.svc "5" Sample.fresh
     = (inr false,
        after Sample.fresh
          [St_error "Error setting up credentials: argument of type 'int' is not iterable"])
  /\ forall f,
       "Error setting up credentials: argument of type 'int' is not iterable"
       <> "Missing required field: " +:+ f.
Proof. repeat split; try reflexivity. intros f. discriminate. Qed.

(** C2 on a key that stops after [client_id]: the report names
    [client_email]. *)
Lemma missing_field_reported_witness :
  json_loads Sample.svc Sample.short_key
  = inr (PyDict [ (PyStr "type", PyStr "service_account");
                   (PyStr "project_id", PyStr "demo-project");
                   (PyStr "client_id", PyStr "1234") ])
  /\ exists f before rest,
       required_fields = before ++ f :: rest
       /\ Forall (has_field [ (PyStr "type", PyStr "service_account");
                               (PyStr "project_id", PyStr "demo-project");
                               (PyStr "client_id", PyStr "1234") ]) before
       /\ ~ has_field [ (PyStr "type", PyStr "service_account");
                        (PyStr "project_id", PyStr "demo-project");
                        (PyStr "client_id", PyStr "1234") ] f
       /\ validate_and_set_credentials Sample.svc Sample.short_key Sample.fresh
          = (inr false,
             after Sample.fresh [St_error ("Missing required field: " +:+ f)]).
Proof.
  split; [reflexivity|].
  apply (missing_field_reported Sample.svc Sample.short_key _ Sample.fresh);
    [reflexivity|].
  exists "client_email". split.
  - do 3 right. left.
  - intros [v Hv]. discriminate Hv.
Defined.

(** C4 on a complete key, with a [logging.Client] that refuses every
    project that is not a string. *)
Lemma validate_accepts_witness :
  logging_Client Trouble.strict_client
    {| service_account_info := Sample.key_value (PyStr "service_account") |}
    (PyInt 5) = Some Trouble.not_a_string
  /\ exists project w',
    dict_find (PyStr "project_id")
      [ (PyStr "type", PyStr "service_account");
        (PyStr "project_id", PyStr "demo-project");
        (PyStr "client_id", PyStr "1234");
        (PyStr "client_email", PyStr "probe@demo-project.iam.gserviceaccount.com");
        (PyStr "private_key", PyStr "PEM");
        (PyStr "token_uri", PyStr "https://oauth2.googleapis.com/token") ]
    = Some project
    /\ validate_and_set_credentials Trouble.strict_client Sample.good_key Sample.fresh
       = (inr true, w')
    /\ project_id (self w') = project
    /\ credentials (self w')
       = Some {| service_account_info := Sample.key_value (PyStr "service_account") |}
    /\ logging_client (self w')
       = Some {| client_credentials :=
                   {| service_account_info := Sample.key_value (PyStr "service_account") |};
                 client_project := project |}
    /\ errors (trace w') = errors (trace Sample.fresh).
Proof.
  split; [reflexivity|].
  apply (validate_accepts Trouble.strict_client Sample.good_key _ Sample.fresh).
  - reflexivity.
  - repeat constructor; eexists; reflexivity.
  - reflexivity.
  - intros project [= <-]. reflexivity.
Defined.

(** C8, as worded, fails: a key whose [type] is the number 1 is accepted,
    for the code looks at the presence of the fields and not at their values. *)
Lemma number_typed_key_accepted :
  json_loads Sample.svc Sample.odd_key = inr (Sample.key_value (PyInt 1))
  /\ fst (validate_and_set_credentials Sample.svc Sample.odd_key Sample.fresh)
     = inr true
  /\ py_getitem (Sample.key_value (PyInt 1)) "type" = inr (PyInt 1)
  /\ is_str (PyInt 1) = false.
Proof. repeat split; reflexivity. Qed.

(** C8 on a complete key. *)
Lemma validate_true_has_fields_witness :
  fst (validate_and_set_credentials Sample.svc Sample.good_key Sample.fresh) = inr true
  /\ exists d, json_loads Sample.svc Sample.good_key = inr (PyDict d)
               /\ Forall (has_field d) required_fields.
Proof.
  split; [reflexivity|].
  apply (validate_true_has_fields Sample.svc Sample.good_key Sample.fresh).
  reflexivity.
Defined.

(** C10 on a text that is not JSON, given to an instance that is connected. *)
Lemma validate_failure_keeps_state_witness :
  json_loads Sample.svc "{" = inl JSONDecodeError
  /\ fst (validate_and_set_credentials Sample.svc "{" Sample.connected) = inr false
  /\ self (snd (validate_and_set_credentials Sample.svc "{" Sample.connected))
     = self Sample.connected.
Proof.
  split; [reflexivity|].
  apply (validate_failure_keeps_state Sample.svc "{" Sample.connected).
  left. by exists JSONDecodeError.
Defined.

(** C9 on a fresh instance. *)
Lemma execute_without_client_witness :
  logging_client (self Sample.fresh) = None
  /\ execute_logging_query Sample.svc "severity>=ERROR" 100 Sample.fresh
     = (inr [], after Sample.fresh [St_error "Logging client not initialized"])
  /\ files (snd (execute_logging_query Sample.svc "severity>=ERROR" 100 Sample.fresh))
     = files Sample.fresh.
Proof.
  split; [reflexivity|].
  apply (execute_without_client Sample.svc "severity>=ERROR" 100 Sample.fresh).
  reflexivity.
Defined.




(** C7, as worded, fails: the empty timestamp of a record is left out of
    the time range, so that [earliest] is not the least of the timestamps of
    the records. *)
Lemma empty_timestamp_is_skipped :
  let results := entry_dict Sample.svc <$> [Sample.bare_entry; Sample.text_entry] in
  omap timestamp_of results = [""; "2024-01-01T13:00:00+00:00"]
  /\ (exists summary,
        results_summary results = inr summary
        /\ earliest (time_range summary) = PyStr "2024-01-01T13:00:00+00:00")
  /\ String.ltb "" "2024-01-01T13:00:00+00:00" = true.
Proof. repeat split. eexists. split; reflexivity. Qed.

(** C7 on three records, one of them without a timestamp. *)
Lemma results_summary_spec_witness :
  let results :=
    entry_dict Sample.svc
      <$> [Sample.text_entry; Sample.bare_entry; Sample.struct_entry] in
  exists summary first last,
    results_summary results = inr summary
    /\ total_entries summary = length results
    /\ sum_list (snd <$> severity_counts summary) = length results
    /\ sum_list (snd <$> resource_types summary) = length results
    /\ time_range summary = {| earliest := PyStr first; latest := PyStr last |}
    /\ first ∈ timestamps results
    /\ last ∈ timestamps results
    /\ (forall t, t ∈ timestamps results ->
                  String.leb first t = true /\ String.leb t last = true)
    /\ String.leb first last = true.
Proof.
  apply (results_summary_spec
           (entry_dict Sample.svc
              <$> [Sample.text_entry; Sample.bare_entry; Sample.struct_entry])).
  - repeat constructor; eexists; reflexivity.
  - discriminate.
  - repeat constructor.
Defined.

(** * Further properties of the methods *)

Section Further.

Variable svc : Services.

(** *** [execute_logging_query] beyond the save step *)

(** X1: when the log service raises, the method reports the exception and
    returns the empty list; it stops before [open], so the dump on disk is
    the one of an earlier call. *)
Theorem execute_fetch_failure (query_string : string) (max_results : Z)
    (client : Client) (e : exn) (w : world) :
  logging_client (self w) = Some client ->
  list_entries svc client query_string max_results = inl e ->
  execute_logging_query svc query_string max_results w
  = (inr [],
     after w [Call_list_entries client query_string max_results;
              St_error ("Error executing query: " +:+ exn_str svc e)]).
Proof.
  intros Hclient Hfetch.
  unfold execute_logging_query, execute_logging_query_body, try_except.
  erewrite bind_returns by reflexivity. rewrite Hclient.
  erewrite bind_returns by reflexivity.
  unfold bind at 1, lift. rewrite Hfetch.
  unfold execute_logging_query_except, bind, st_error, emit, ret, after.
  cbn [self genai_api_key files trace]. by rewrite <- app_assoc.
Qed.

(** X2: when the file cannot be opened, the fetched entries are lost: the
    method reports the exception and returns the empty list, and no file
    changes. *)
Theorem execute_open_failure (query_string : string) (max_results : Z)
    (client : Client) (entries : list LogEntry) (e : exn) (w : world) :
  logging_client (self w) = Some client ->
  list_entries svc client query_string max_results = inr entries ->
  open_write svc "my_dict.csv" = Some e ->
  execute_logging_query svc query_string max_results w
  = (inr [],
     after w [Call_list_entries client query_string max_results;
              Call_open_write "my_dict.csv";
              St_error ("Error executing query: " +:+ exn_str svc e)]).
Proof.
  intros Hclient Hfetch Hopen.
  unfold execute_logging_query, execute_logging_query_body, try_except.
  erewrite bind_returns by reflexivity. rewrite Hclient.
  erewrite bind_returns by reflexivity.
  erewrite bind_returns by (unfold lift; by rewrite Hfetch).
  unfold save_to_csv, open_w, bind, emit, guard_call. rewrite Hopen.
  unfold raise, execute_logging_query_except, bind, st_error, emit, ret, after.
  cbn [self genai_api_key files trace]. by rewrite <- !app_assoc.
Qed.

(** X3: whatever the query and the services do, [execute_logging_query]
    returns, leaves the attributes of the instance and the configured key
    alone, and changes no file other than [my_dict.csv]. *)
Theorem execute_frame (query_string : string) (max_results : Z) (w : world) :
  exists results w',
    execute_logging_query svc query_string max_results w = (inr results, w')
    /\ self w' = self w
    /\ genai_api_key w' = genai_api_key w
    /\ forall path, path <> "my_dict.csv" -> files w' !! path = files w !! path.
Proof.
  destruct (logging_client (self w)) as [client|] eqn:Hclient.
  2: { unfold execute_logging_query, execute_logging_query_body, try_except.
       erewrite bind_returns by reflexivity. rewrite Hclient.
       do 2 eexists. split; [reflexivity|]. done. }
  destruct (list_entries svc client query_string max_results) as [e|entries]
    eqn:Hfetch.
  1: { unfold execute_logging_query, execute_logging_query_body, try_except.
       erewrite bind_returns by reflexivity. rewrite Hclient.
       erewrite bind_returns by reflexivity.
       unfold bind at 1, lift. rewrite Hfetch.
       do 2 eexists. split; [reflexivity|]. done. }
  destruct (open_write svc "my_dict.csv") as [e|] eqn:Hopen.
  - unfold execute_logging_query, execute_logging_query_body, try_except.
    erewrite bind_returns by reflexivity. rewrite Hclient.
    erewrite bind_returns by reflexivity.
    erewrite bind_returns by (unfold lift; by rewrite Hfetch).
    unfold save_to_csv, open_w, bind, emit, guard_call. rewrite Hopen.
    do 2 eexists. split; [reflexivity|]. done.
  - unfold execute_logging_query, execute_logging_query_body, try_except.
    erewrite bind_returns by reflexivity. rewrite Hclient.
    erewrite bind_returns by reflexivity.
    erewrite bind_returns by (unfold lift; by rewrite Hfetch).
    erewrite bind_returns by (by apply save_to_csv_entries).
    do 2 eexists. split; [reflexivity|].
    repeat split. intros path Hpath. cbn [files].
    by rewrite lookup_insert_ne.
Qed.

(** *** [validate_and_set_credentials] beyond acceptance *)

(** The method, path by path: the value returned and the attributes left. *)
Lemma validate_outcome (credentials_json : string) (w : world) :
  let r := validate_and_set_credentials svc credentials_json w in
  match json_loads svc credentials_json with
  | inl _ => fst r = inr false /\ self (snd r) = self w
  | inr data =>
      match first_missing required_fields data with
      | inl _ | inr (Some _) => fst r = inr false /\ self (snd r) = self w
      | inr None =>
          let creds := {| service_account_info := data |} in
          match from_service_account_info svc data with
          | Some _ => fst r = inr false /\ self (snd r) = self w
          | None =>
              match py_getitem data "project_id" with
              | inl _ =>
                  fst r = inr false
                  /\ self (snd r)
                     = {| logging_client := logging_client (self w);
                          credentials := Some creds;
                          project_id := project_id (self w) |}
              | inr project =>
                  match logging_Client svc creds project with
                  | Some _ =>
                      fst r = inr false
                      /\ self (snd r)
                         = {| logging_client := logging_client (self w);
                              credentials := Some creds;
                              project_id := project |}
                  | None =>
                      fst r = inr true
                      /\ self (snd r)
                         = {| logging_client :=
                                Some {| client_credentials := creds;
                                        client_project := project |};
                              credentials := Some creds;
                              project_id := project |}
                  end
              end
          end
      end
  end.
Proof.
  cbn zeta. unfold validate_and_set_credentials, try_except.
  rewrite validate_body_paths.
  destruct (json_loads svc credentials_json) as [e|data].
  { by destruct (validate_except_reports svc e w) as [msg ->]. }
  destruct (first_missing required_fields data) as [e|[f|]]; [|done|].
  { by destruct (validate_except_reports svc e w) as [msg ->]. }
  cbn zeta.
  destruct (from_service_account_info svc data) as [e|].
  { match goal with |- context [validate_and_set_credentials_except svc e ?w'] =>
      by destruct (validate_except_reports svc e w') as [msg ->] end. }
  destruct (py_getitem data "project_id") as [e|project].
  { match goal with |- context [validate_and_set_credentials_except svc e ?w'] =>
      by destruct (validate_except_reports svc e w') as [msg ->] end. }
  destruct (logging_Client svc _ project) as [e|]; [|done].
  match goal with |- context [validate_and_set_credentials_except svc e ?w'] =>
    by destruct (validate_except_reports svc e w') as [msg ->] end.
Qed.

Lemma first_missing_complete (d : pydict) :
  Forall (has_field d) required_fields ->
  first_missing required_fields (PyDict d) = inr None.
Proof.
  intros Hfields.
  pose proof (first_missing_object required_fields d) as Hloop.
  destruct (first_missing required_fields (PyDict d)) as [e|[f|]]; [done| |done].
  destruct Hloop as (before & rest & Heq & _ & Hf).
  assert (has_field d f) as [v Hv]; [|congruence].
  rewrite Forall_forall in Hfields. apply Hfields.
  rewrite Heq, elem_of_app. right. by left.
Qed.

(** X4: validation is not all or nothing.  When the key is complete and the
    credentials are built but [logging.Client] raises, the method returns
    [False] with the new credentials and project already stored, next to the
    logging client of before. *)
Theorem validate_client_failure (credentials_json : string) (d : pydict)
    (project : pyval) (e : exn) (w : world) :
  json_loads svc credentials_json = inr (PyDict d) ->
  Forall (has_field d) required_fields ->
  dict_find (PyStr "project_id") d = Some project ->
  from_service_account_info svc (PyDict d) = None ->
  logging_Client svc {| service_account_info := PyDict d |} project = Some e ->
  fst (validate_and_set_credentials svc credentials_json w) = inr false
  /\ self (snd (validate_and_set_credentials svc credentials_json w))
     = {| logging_client := logging_client (self w);
          credentials := Some {| service_account_info := PyDict d |};
          project_id := project |}.
Proof.
  intros Hloads Hfields Hproject Hcreds Hclient.
  pose proof (validate_outcome credentials_json w) as Hout. cbn zeta in Hout.
  rewrite Hloads, (first_missing_complete d Hfields), Hcreds in Hout.
  cbn [py_getitem] in Hout. by rewrite Hproject, Hclient in Hout.
Qed.

(** X5: a validation that returns [False] never replaces the logging
    client, whatever else it has stored. *)
Theorem validate_failure_keeps_client (credentials_json : string) (w : world) :
  fst (validate_and_set_credentials svc credentials_json w) = inr false ->
  logging_client (self (snd (validate_and_set_credentials svc credentials_json w)))
  = logging_client (self w).
Proof.
  pose proof (validate_outcome credentials_json w) as Hout. cbn zeta in Hout.
  destruct (json_loads svc credentials_json) as [e|data];
    [by destruct Hout as [_ ->]|].
  destruct (first_missing required_fields data) as [e|[f|]];
    [by destruct Hout as [_ ->]..|].
  destruct (from_service_account_info svc data) as [e|];
    [by destruct Hout as [_ ->]|].
  destruct (py_getitem data "project_id") as [e|project];
    [by destruct Hout as [_ ->]|].
  destruct (logging_Client svc _ project) as [e|];
    [by destruct Hout as [_ ->]|].
  destruct Hout as [-> _]. discriminate.
Qed.

(** X6: the verdict on a key does not depend on what the instance or the
    world held before, and an accepted key leaves the same three attributes
    whatever they were: validating again changes nothing. *)
Theorem validate_independent_of_state (credentials_json : string) (w1 w2 : world) :
  fst (validate_and_set_credentials svc credentials_json w1)
  = fst (validate_and_set_credentials svc credentials_json w2)
  /\ (fst (validate_and_set_credentials svc credentials_json w1) = inr true ->
      self (snd (validate_and_set_credentials svc credentials_json w1))
      = self (snd (validate_and_set_credentials svc credentials_json w2))).
Proof.
  pose proof (validate_outcome credentials_json w1) as Hout1.
  pose proof (validate_outcome credentials_json w2) as Hout2.
  cbn zeta in Hout1, Hout2.
  destruct (json_loads svc credentials_json) as [e|data].
  { destruct Hout1 as [-> _], Hout2 as [-> _]. done. }
  destruct (first_missing required_fields data) as [e|[f|]].
  1, 2: destruct Hout1 as [-> _], Hout2 as [-> _]; done.
  destruct (from_service_account_info svc data) as [e|].
  { destruct Hout1 as [-> _], Hout2 as [-> _]. done. }
  destruct (py_getitem data "project_id") as [e|project].
  { destruct Hout1 as [-> _], Hout2 as [-> _]. done. }
  destruct (logging_Client svc _ project) as [e|].
  { destruct Hout1 as [-> _], Hout2 as [-> _]. done. }
  destruct Hout1 as [-> ->], Hout2 as [-> ->]. done.
Qed.

(** *** The two methods that call the generative service *)

Lemma genai_model_paths (gemini_api_key name : string) (w : world) :
  genai_model svc gemini_api_key name w =
  match genai_configure svc gemini_api_key with
  | Some e => (inl e, after w [Call_genai_configure gemini_api_key])
  | None =>
      let w1 := {| self := self w; genai_api_key := Some gemini_api_key;
                   files := files w;
                   trace := trace w ++ [Call_genai_configure gemini_api_key;
                                        Call_GenerativeModel name] |} in
      match genai_GenerativeModel svc name with
      | Some e => (inl e, w1)
      | None => (inr name, w1)
      end
  end.
Proof.
  unfold genai_model, bind, emit, guard_call, set_genai_api_key, ret, raise, after.
  destruct (genai_configure svc gemini_api_key) as [e|]; [done|].
  cbn [self genai_api_key files trace]. rewrite <- app_assoc.
  by destruct (genai_GenerativeModel svc name).
Qed.

(** X7: when the generative service answers, [generate_logging_query]
    returns the answer stripped.  The call is made under the key of this
    call, whichever key was configured before, on the model
    [gemini-1.5-flash] and with the prompt built from the question. *)
Theorem generate_returns_stripped_answer (user_question gemini_api_key answer : string)
    (response : Response) (w : world) :
  genai_configure svc gemini_api_key = None ->
  genai_GenerativeModel svc "gemini-1.5-flash" = None ->
  generate_content svc (Some gemini_api_key) "gemini-1.5-flash"
                   (query_prompt user_question) = inr response ->
  text response = inr answer ->
  generate_logging_query svc user_question gemini_api_key w
  = (inr (str_strip svc answer),
     {| self := self w; genai_api_key := Some gemini_api_key; files := files w;
        trace := trace w ++ [Call_genai_configure gemini_api_key;
                             Call_GenerativeModel "gemini-1.5-flash";
                             Call_generate_content (query_prompt user_question)] |}).
Proof.
  intros Hconfigure Hmodel Hcall Htext.
  unfold generate_logging_query, try_except, generate_logging_query_body.
  erewrite bind_returns; cycle 1.
  { rewrite genai_model_paths, Hconfigure. cbn zeta. by rewrite Hmodel. }
  erewrite bind_returns; cycle 1.
  { unfold model_generate_content, bind, get_genai_api_key, emit, lift.
    cbn [self genai_api_key files trace]. by rewrite Hcall. }
  erewrite bind_returns by (unfold lift; by rewrite Htext).
  unfold ret. by rewrite <- app_assoc.
Qed.

Lemma model_generate_content_frame (model prompt : string) (w : world) :
  let w' := snd (model_generate_content svc model prompt w) in
  self w' = self w /\ files w' = files w /\ genai_api_key w' = genai_api_key w.
Proof.
  unfold model_generate_content, bind, get_genai_api_key, emit, lift. cbn.
  by destruct (generate_content svc (genai_api_key w) model prompt).
Qed.

Lemma genai_model_frame (gemini_api_key name : string) (w : world) :
  let w' := snd (genai_model svc gemini_api_key name w) in
  self w' = self w /\ files w' = files w.
Proof.
  rewrite genai_model_paths.
  destruct (genai_configure svc gemini_api_key); [done|].
  by destruct (genai_GenerativeModel svc name).
Qed.

(** X8: neither [generate_logging_query] nor [analyze_results] changes an
    attribute of the instance or a file, whatever they are given and whatever
    the service does. *)
Theorem genai_methods_frame (w : world) :
  (forall user_question gemini_api_key,
     let w' := snd (generate_logging_query svc user_question gemini_api_key w) in
     self w' = self w /\ files w' = files w)
  /\ (forall results user_question gemini_api_key,
        let w' := snd (analyze_results svc results user_question gemini_api_key w) in
        self w' = self w /\ files w' = files w).
Proof.
  split.
  - intros user_question gemini_api_key. cbn zeta.
    destruct (generate_logging_query svc user_question gemini_api_key w)
      as [res w'] eqn:Hrun.
    cbn [snd]. revert Hrun.
    unfold generate_logging_query, try_except, generate_logging_query_body,
      generate_logging_query_except, st_error, emit, bind, ret.
    pose proof (genai_model_frame gemini_api_key "gemini-1.5-flash" w) as Hmodel.
    destruct (genai_model svc gemini_api_key "gemini-1.5-flash" w) as [[e|model] w1];
      cbn in Hmodel; [by intros [= <- <-]|].
    pose proof (model_generate_content_frame model (query_prompt user_question) w1)
      as Hcall.
    destruct (model_generate_content svc model (query_prompt user_question) w1)
      as [[e|response] w2]; cbn in Hcall; destruct Hmodel, Hcall as (? & ? & ?).
    + intros [= <- <-]. cbn. split; congruence.
    + unfold lift. destruct (text response); intros [= <- <-]; cbn;
        split; congruence.
  - intros results user_question gemini_api_key. cbn zeta.
    destruct (analyze_results svc results user_question gemini_api_key w)
      as [res w'] eqn:Hrun.
    cbn [snd]. revert Hrun.
    unfold analyze_results, try_except, analyze_results_body,
      analyze_results_except, st_error, emit, bind, ret.
    destruct results as [|r results]; [by intros [= <- <-]|].
    pose proof (genai_model_frame gemini_api_key "gemini-1.5-flash" w) as Hmodel.
    destruct (genai_model svc gemini_api_key "gemini-1.5-flash" w) as [[e|model] w1];
      cbn in Hmodel; [by intros [= <- <-]|].
    unfold lift at 1.
    destruct (results_summary (r :: results)) as [e|summary];
      [by intros [= <- <-]|].
    match goal with |- context [model_generate_content svc model ?p w1] =>
      pose proof (model_generate_content_frame model p w1) as Hcall;
      destruct (model_generate_content svc model p w1) as [[e|response] w2]
    end; cbn in Hcall; destruct Hmodel, Hcall as (? & ? & ?).
    + intros [= <- <-]. cbn. split; congruence.
    + unfold lift. destruct (text response); intros [= <- <-]; cbn;
        split; congruence.
Qed.

Lemma prefix_app (s rest : string) : String.prefix s (s +:+ rest) = true.
Proof.
  induction s as [|c s IH]; [by destruct rest|].
  change (String c s +:+ rest) with (String c (s +:+ rest)).
  cbn [String.prefix]. destruct (ascii_dec c c) as [_|Hne]; [exact IH|].
  by destruct Hne.
Qed.

Lemma str_contains_app (before s rest : string) :
  str_contains s (before +:+ s +:+ rest) = true.
Proof.
  induction before as [|c before IH].
  - change ("" +:+ s +:+ rest) with (s +:+ rest).
    destruct (s +:+ rest) eqn:E; cbn [str_contains]; rewrite <- E;
      by rewrite prefix_app.
  - change (String c before +:+ s +:+ rest) with (String c (before +:+ s +:+ rest)).
    cbn [str_contains]. rewrite IH. apply orb_true_r.
Qed.

(** X9: both prompts carry the question of the user as it was typed: it
    occurs in them unchanged, with nothing escaped. *)
Theorem prompts_contain_question (user_question : string)
    (summary sample_entries : pyval) :
  str_contains user_question (query_prompt user_question) = true
  /\ str_contains user_question
       (analysis_prompt svc user_question summary sample_entries) = true.
Proof.
  split.
  - unfold query_prompt. apply str_contains_app.
  - unfold analysis_prompt. apply str_contains_app.
Qed.

(** X11: a non-empty result list in which no record has a non-empty
    timestamp cannot be analysed: once the model is set up, [min] raises on
    the empty generator, the method reports it and returns its error text,
    and [generate_content] is never called. *)
Theorem analyze_without_timestamps (results : list pydict)
    (user_question gemini_api_key : string) (w : world) :
  results <> [] ->
  Forall (fun r => is_Some (timestamp_of r)) results ->
  timestamps results = [] ->
  genai_configure svc gemini_api_key = None ->
  genai_GenerativeModel svc "gemini-1.5-flash" = None ->
  analyze_results svc results user_question gemini_api_key w
  = (inr "Error analyzing results",
     {| self := self w; genai_api_key := Some gemini_api_key; files := files w;
        trace := trace w ++ [Call_genai_configure gemini_api_key;
                             Call_GenerativeModel "gemini-1.5-flash";
                             St_error ("Error analyzing results: "
                                       +:+ exn_str svc ValueError_empty_sequence)] |}).
Proof.
  intros Hresults Hstamps Hnone Hconfigure Hmodel.
  unfold analyze_results, try_except, analyze_results_body.
  destruct results as [|r results]; [done|].
  erewrite bind_returns; cycle 1.
  { rewrite genai_model_paths, Hconfigure. cbn zeta. by rewrite Hmodel. }
  unfold bind at 1, lift at 1, results_summary, py_lt.
  rewrite select_timestamp_first, Hnone by done.
  cbn [and_then].
  unfold analyze_results_except, bind, st_error, emit, ret.
  cbn [self genai_api_key files trace]. by rewrite <- app_assoc.
Qed.

(** A record without the key [timestamp] stops [min] and [max]. *)
Lemma select_timestamp_missing_key (better : pyval -> pyval -> exn + bool)
    (results : list pydict) :
  Exists (fun r => dict_find (PyStr "timestamp") r = None) results ->
  forall cur, exists e, select_timestamp better cur results = inl e.
Proof.
  induction 1 as [r rest Hr|r rest _ IH]; intros cur.
  - cbn [select_timestamp py_getitem]. rewrite Hr. by eexists.
  - cbn [select_timestamp].
    destruct (py_getitem (PyDict r) "timestamp") as [e|item]; [by eexists|].
    cbn [and_then]. destruct (py_truthy item); [|apply IH].
    destruct cur as [c|]; [|apply IH].
    destruct (better item c) as [e|b]; [by eexists|apply IH].
Qed.

(** X12: if any record lacks the key [timestamp], no summary is built: the
    subscript raises unless an earlier record has already made the
    comparison fail. *)
Theorem summary_needs_timestamp_key (results : list pydict) :
  Exists (fun r => dict_find (PyStr "timestamp") r = None) results ->
  exists e, results_summary results = inl e.
Proof.
  intros Hmissing. unfold results_summary.
  destruct (select_timestamp_missing_key py_lt results Hmissing None) as [e ->].
  by exists e.
Qed.

(** *** The counts of the summary *)

(** On values that can be hashed, [==] is symmetric and transitive. *)
Lemma py_eq_sym (a b : pyval) :
  py_hashable a = true -> py_hashable b = true -> py_eq a b = py_eq b a.
Proof.
  destruct a, b; try discriminate; intros _ _; cbn;
    try reflexivity; try apply Qeq_bool_comm.
  apply String.eqb_sym.
Qed.

Lemma py_eq_trans (a b c : pyval) :
  py_hashable a = true -> py_hashable b = true -> py_hashable c = true ->
  py_eq a b = true -> py_eq b c = true -> py_eq a c = true.
Proof.
  destruct a, b; try discriminate; cbn; try discriminate;
    destruct c; try discriminate; cbn; try done; intros _ _ _;
    try apply Qeq_bool_trans.
  rewrite !String.eqb_eq. congruence.
Qed.

(** Equal keys find the same entry. *)
Lemma dict_find_equal_keys {V} (j k : pyval) (d : list (pyval * V)) :
  py_hashable j = true -> py_hashable k = true ->
  Forall (fun kv => py_hashable (fst kv) = true) d ->
  py_eq j k = true ->
  dict_find j d = dict_find k d.
Proof.
  intros Hj Hk Hd Hjk.
  induction Hd as [|[k' v'] d Hk' _ IH]; [done|].
  cbn [dict_find]. cbn in Hk'.
  destruct (py_eq j k') eqn:Hjk', (py_eq k k') eqn:Hkk'; try done.
  - rewrite (py_eq_sym j k) in Hjk by done.
    by rewrite (py_eq_trans k j k') in Hkk'.
  - by rewrite (py_eq_trans j k k') in Hjk'.
Qed.

(** Looking up after an assignment. *)
Lemma dict_find_set {V} (j k : pyval) (v : V) (d : list (pyval * V)) :
  py_hashable j = true -> py_hashable k = true ->
  Forall (fun kv => py_hashable (fst kv) = true) d ->
  dict_find j (dict_set k v d) = if py_eq j k then Some v else dict_find j d.
Proof.
  intros Hj Hk Hd.
  induction Hd as [|[k' v'] d Hk' _ IH]; [cbn; by destruct (py_eq j k)|].
  cbn [dict_set dict_find]. cbn in Hk'.
  destruct (py_eq k k') eqn:Hkk'; cbn [dict_find].
  - destruct (py_eq j k') eqn:Hjk', (py_eq j k) eqn:Hjk; try done.
    + rewrite (py_eq_sym k k') in Hkk' by done.
      by rewrite (py_eq_trans j k' k) in Hjk.
    + by rewrite (py_eq_trans j k k') in Hjk'.
  - rewrite IH.
    destruct (py_eq j k') eqn:Hjk', (py_eq j k) eqn:Hjk; try done.
    rewrite (py_eq_sym j k) in Hjk by done.
    by rewrite (py_eq_trans k j k') in Hkk'.
Qed.

Lemma dict_set_hashable {V} (k : pyval) (v : V) (d : list (pyval * V)) :
  py_hashable k = true ->
  Forall (fun kv => py_hashable (fst kv) = true) d ->
  Forall (fun kv => py_hashable (fst kv) = true) (dict_set k v d).
Proof.
  intros Hk Hd.
  induction Hd as [|[k' v'] d Hk' Hd IH]; [by repeat constructor|].
  cbn [dict_set]. destruct (py_eq k k'); by constructor.
Qed.

(** One step of the counting: the count under every key grows by one when
    the key equals the counted value, and stays otherwise. *)
Lemma increment_tally (field : pyval) (counts counts' : list (pyval * nat)) :
  Forall (fun kv => py_hashable (fst kv) = true) counts ->
  increment field counts = inr counts' ->
  Forall (fun kv => py_hashable (fst kv) = true) counts'
  /\ forall k, py_hashable k = true ->
       default 0%nat (dict_find k counts')
       = (default 0%nat (dict_find k counts) + if py_eq k field then 1 else 0)%nat.
Proof.
  intros Hcounts. unfold increment.
  destruct (py_hashable field) eqn:Hfield; [|discriminate].
  intros [= <-]. split; [by apply dict_set_hashable|].
  intros k Hk. rewrite dict_find_set by done.
  destruct (py_eq k field) eqn:Hkf; cbn; [|lia].
  by rewrite (dict_find_equal_keys k field counts).
Qed.

Lemma count_entries_tally (results : list pydict) :
  forall sevs0 types0 sevs types,
    Forall (fun kv => py_hashable (fst kv) = true) sevs0 ->
    Forall (fun kv => py_hashable (fst kv) = true) types0 ->
    count_entries results sevs0 types0 = inr (sevs, types) ->
    forall k, py_hashable k = true ->
      default 0%nat (dict_find k sevs)
      = (default 0%nat (dict_find k sevs0) + tally severity_of k results)%nat
      /\ default 0%nat (dict_find k types)
         = (default 0%nat (dict_find k types0) + tally resource_type_of k results)%nat.
Proof.
  induction results as [|r results IH]; intros sevs0 types0 sevs types Hs Ht.
  - intros [= <- <-] k _. unfold tally. cbn. lia.
  - cbn [count_entries]. unfold dict_get. cbn [py_hashable and_then].
    fold (severity_of r). fold (resource_type_of r).
    destruct (increment (severity_of r) sevs0) as [e|sevs1] eqn:Hsev; [done|].
    destruct (increment (resource_type_of r) types0) as [e|types1] eqn:Htype;
      [done|].
    cbn [and_then]. intros Hrest k Hk.
    destruct (increment_tally _ _ _ Hs Hsev) as [Hs1 Hsev1].
    destruct (increment_tally _ _ _ Ht Htype) as [Ht1 Htype1].
    destruct (IH _ _ _ _ Hs1 Ht1 Hrest k Hk) as [-> ->].
    rewrite Hsev1, Htype1 by done.
    unfold tally. cbn [List.filter].
    destruct (py_eq k (severity_of r)), (py_eq k (resource_type_of r));
      cbn [length]; lia.
Qed.

(** X13: in a summary that is built, the count under a severity is the
    number of records of that severity, and the count under a resource type
    the number of records of that type; a record without the field counts
    under [UNKNOWN], and a value that occurs nowhere has no count. *)
Theorem summary_counts_are_tallies (results : list pydict) (summary : ResultsSummary)
    (k : pyval) :
  results_summary results = inr summary ->
  py_hashable k = true ->
  default 0%nat (dict_find k (severity_counts summary)) = tally severity_of k results
  /\ default 0%nat (dict_find k (resource_types summary))
     = tally resource_type_of k results.
Proof.
  unfold results_summary.
  destruct (select_timestamp py_lt None results) as [e|first]; [done|].
  destruct (select_timestamp py_gt None results) as [e|last]; [done|].
  cbn [and_then].
  destruct (count_entries results [] []) as [e|[sevs types]] eqn:Hcount; [done|].
  intros [= <-] Hk. cbn [severity_counts resource_types fst snd].
  by destruct (count_entries_tally results [] [] sevs types
                 (List.Forall_nil _) (List.Forall_nil _) Hcount k Hk) as [-> ->].
Qed.

(** *** From the fetched entries to the summary *)

Lemma entry_dict_timestamp (entry : LogEntry) :
  timestamp_of (entry_dict svc entry) = Some (entry_stamp entry).
Proof. unfold entry_stamp. by destruct entry as [[t|] ? ? ? ? ?]. Qed.

Lemma fetched_timestamps (entries : list LogEntry) :
  timestamps (entry_dict svc <$> entries)
  = List.filter (fun t => negb (String.eqb t "")) (entry_stamp <$> entries).
Proof.
  induction entries as [|entry entries IH]; [done|].
  cbn [fmap list_fmap].
  rewrite (timestamps_cons _ _ _ (entry_dict_timestamp entry)).
  cbn [List.filter]. rewrite <- IH.
  by destruct (String.eqb (entry_stamp entry) "").
Qed.

(** The counting loop fails only on a value that cannot be hashed. *)
Lemma count_entries_error (results : list pydict) :
  forall sevs types e,
    count_entries results sevs types = inl e -> exists v, e = TypeError_unhashable v.
Proof.
  induction results as [|r results IH]; intros sevs types e; [done|].
  cbn [count_entries]. unfold dict_get. cbn [py_hashable and_then].
  unfold increment at 1.
  destruct (py_hashable _); cbn [and_then]; [|intros [= <-]; by eexists].
  unfold increment at 1.
  destruct (py_hashable _); cbn [and_then]; [|intros [= <-]; by eexists].
  apply IH.
Qed.

(** X14: on the records [execute_logging_query] returns, the summary can
    fail in two ways only.  [min] raises on the empty generator exactly when
    no fetched entry has a timestamp; otherwise the only failure is a
    severity or resource type that cannot be hashed.  The subscript and the
    comparisons never raise on these records. *)
Theorem fetched_summary_failures (entries : list LogEntry) :
  (results_summary (entry_dict svc <$> entries) = inl ValueError_empty_sequence
   <-> Forall (fun entry => entry_stamp entry = "") entries)
  /\ forall e, results_summary (entry_dict svc <$> entries) = inl e ->
       e = ValueError_empty_sequence \/ exists v, e = TypeError_unhashable v.
Proof.
  assert (Forall (fun r => is_Some (timestamp_of r)) (entry_dict svc <$> entries))
    as Hstamps.
  { induction entries as [|entry entries IH]; constructor; [|done].
    rewrite entry_dict_timestamp. by eexists. }
  assert (List.filter (fun t => negb (String.eqb t "")) (entry_stamp <$> entries) = []
          <-> Forall (fun entry => entry_stamp entry = "") entries) as Hnone.
  { induction entries as [|entry entries IH]; [by split; [constructor|]|].
    cbn [fmap list_fmap List.filter]. rewrite Forall_cons.
    destruct (String.eqb (entry_stamp entry) "") eqn:E; cbn [negb].
    - apply String.eqb_eq in E.
      rewrite IH; [tauto|]. by inversion Hstamps.
    - apply String.eqb_neq in E. split; [done|tauto]. }
  unfold results_summary, py_lt, py_gt.
  rewrite !select_timestamp_first, fetched_timestamps by done.
  destruct (List.filter _ (entry_stamp <$> entries)) as [|t ts].
  - split; [|intros e [= <-]; by left].
    split; [intros _; by apply Hnone|done].
  - cbn [and_then].
    destruct (count_entries (entry_dict svc <$> entries) [] []) as [e|counts]
      eqn:Hcount; cbn [and_then].
    + destruct (count_entries_error _ _ _ _ Hcount) as [v ->].
      split; [|intros e [= <-]; right; by eexists].
      split; [done|]. intros Hall. by apply Hnone in Hall.
    + split; [|done].
      split; [done|]. intros Hall. by apply Hnone in Hall.
Qed.

End Further.

(** * Properties of the page *)

Section PageProperties.

Variable svc : Services.

#[local] Open Scope page_scope.

Lemma pbind_returns {A B} (m : P A) (k : A -> P B) (p p' : page) (a : A) :
  m p = (inr a, p') -> pbind m k p = k a p'.
Proof. intros Hm. unfold pbind. by rewrite Hm. Qed.

Lemma pbind_raises {A B} (m : P A) (k : A -> P B) (p p' : page) (e : exn) :
  m p = (inl e, p') -> pbind m k p = (inl e, p').
Proof. intros Hm. unfold pbind. by rewrite Hm. Qed.

Lemma in_world_runs {A} (m : M A) (p : page) (r : exn + A) (w' : world) :
  m (page_world p) = (r, w') ->
  in_world m p = (r, {| page_world := w'; display := display p |}).
Proof. intros Hm. unfold in_world. by rewrite Hm. Qed.

(** *** The markup *)

Lemma str_contains_here (s rest : string) : str_contains s (s +:+ rest) = true.
Proof. apply (str_contains_app "" s rest). Qed.

Lemma str_contains_skip (before s text : string) :
  str_contains s text = true -> str_contains s (before +:+ text) = true.
Proof.
  intros Htext. induction before as [|c before IH]; [done|].
  change (String c before +:+ text) with (String c (before +:+ text)).
  cbn [str_contains]. rewrite IH. apply orb_true_r.
Qed.

Lemma str_contains_empty (s : string) : str_contains "" s = true.
Proof. by destruct s. Qed.

(** X15: the four markup functions of [styles.py] put their texts into the
    markup as they are, with nothing escaped.  Each makes one call,
    [st.markdown] with [unsafe_allow_html=True], and in the markup it hands
    over there occur unchanged: the status of a badge; the title, the value
    and the description of a metric, whatever the other two are; the
    generated query; the title and the content of an insight. *)
Theorem markup_is_verbatim (text other another : string) (ok : bool) :
  draws_unescaped (render_status_badge text ok) text
  /\ draws_unescaped (render_metric_card text other another) text
  /\ draws_unescaped (render_metric_card other text another) text
  /\ draws_unescaped (render_metric_card other another text) text
  /\ draws_unescaped (render_query_display text) text
  /\ draws_unescaped (render_insight_box text other) text
  /\ draws_unescaped (render_insight_box other text) text.
Proof.
  unfold draws_unescaped, render_status_badge, render_metric_card,
    render_query_display, render_insight_box, draw.
  repeat split; intros p; eexists; (split; [reflexivity|]);
    unfold status_badge, metric_card, query_display, insight_box,
      description_paragraph;
    (destruct (String.eqb_spec text "") as [-> | _]; cbn [negb];
       [apply str_contains_empty|]);
    rewrite ?str_app_assoc;
    repeat first [ apply str_contains_here | apply str_contains_skip ].
Qed.

(** *** The analysis started by the button *)

(** X16: when [generate_logging_query] returns the empty string, because it
    failed or because the answer was blank, the run stops there: [main]
    reports that no query could be generated and the log service is not
    queried.  The world is the one the method left, with that report added. *)
Theorem run_analysis_without_query (user_question gemini_api_key : string) (p : page) :
  fst (generate_logging_query svc user_question gemini_api_key (page_world p))
  = inr "" ->
  run_analysis svc user_question gemini_api_key p
  = (inr tt,
     {| page_world :=
          after (snd (generate_logging_query svc user_question gemini_api_key
                                             (page_world p)))
                [St_error
                   "Failed to generate query. Please check your question and try again."];
        display := display p ++ [St_spinner "Generating Cloud Logging query..."] |}).
Proof.
  intros Hquery. unfold run_analysis.
  erewrite pbind_returns by reflexivity.
  destruct (generate_logging_query svc user_question gemini_api_key (page_world p))
    as [r w1] eqn:Hrun.
  cbn [fst snd] in *. subst r.
  erewrite pbind_returns; cycle 1.
  { apply in_world_runs. cbn [page_world]. exact Hrun. }
  cbn [nonempty String.eqb negb]. reflexivity.
Qed.

(** X17: when the query is generated but [execute_logging_query] returns no
    record, because nothing matched or because the method failed, [main]
    shows the query and a warning, and [analyze_results] is not called: the
    world is the one [execute_logging_query] left. *)
Theorem run_analysis_without_results (user_question gemini_api_key query : string)
    (w1 : world) (p : page) :
  generate_logging_query svc user_question gemini_api_key (page_world p)
  = (inr query, w1) ->
  query <> "" ->
  fst (execute_logging_query svc query 100 w1) = inr [] ->
  run_analysis svc user_question gemini_api_key p
  = (inr tt,
     {| page_world := snd (execute_logging_query svc query 100 w1);
        display :=
          display p
          ++ [St_spinner "Generating Cloud Logging query...";
              St_subheader "Generated Query";
              St_markdown (query_display query) true;
              St_spinner "Executing query...";
              St_warning
                "No results found for your query. Try rephrasing your question."] |}).
Proof.
  intros Hquery Hnonempty Hresults. unfold run_analysis.
  erewrite pbind_returns by reflexivity.
  erewrite pbind_returns; cycle 1.
  { apply in_world_runs. cbn [page_world]. exact Hquery. }
  unfold nonempty. apply String.eqb_neq in Hnonempty. rewrite Hnonempty.
  cbn [negb].
  do 3 (erewrite pbind_returns by reflexivity).
  destruct (execute_logging_query svc query 100 w1) as [r w2] eqn:Hrun.
  cbn [fst snd] in *. subst r.
  erewrite pbind_returns; cycle 1.
  { apply in_world_runs. cbn [page_world]. exact Hrun. }
  unfold draw. cbn [page_world display].
  by rewrite <- !app_assoc.
Qed.

(** *** The raw results *)

Lemma show_raw_results_draws (total : nat) (shown : list pydict) :
  forall i p,
    show_raw_results i total shown p
    = (inr tt, {| page_world := page_world p;
                  display := display p ++ raw_calls i total shown |}).
Proof.
  induction shown as [|result shown IH]; intros i p.
  - cbn. unfold pret. rewrite app_nil_r. by destruct p.
  - cbn [show_raw_results raw_calls].
    erewrite pbind_returns by reflexivity.
    destruct (Z.of_nat i <? Z.of_nat total - 1)%Z.
    + erewrite pbind_returns by reflexivity. rewrite IH.
      cbn [page_world display]. by rewrite <- !app_assoc.
    + erewrite pbind_returns by reflexivity. rewrite IH.
      cbn [page_world display]. by rewrite <- !app_assoc.
Qed.

Lemma raw_calls_counts (total : nat) (shown : list pydict) :
  forall i,
    length (List.filter is_json (raw_calls i total shown)) = length shown
    /\ length (List.filter is_divider (raw_calls i total shown))
       = (Nat.min (i + length shown) (total - 1) - Nat.min i (total - 1))%nat.
Proof.
  induction shown as [|result shown IH]; intros i.
  - cbn. split; [done|lia].
  - cbn [raw_calls List.filter is_json is_divider length].
    destruct (IH (S i)) as [Hjson Hdivider].
    destruct (Z.ltb_spec (Z.of_nat i) (Z.of_nat total - 1)) as [Hlt|Hge];
      cbn [app List.filter is_json is_divider length];
      rewrite Hjson, Hdivider; split; lia.
Qed.

Lemma raw_calls_kinds (total : nat) (shown : list pydict) :
  forall i, Forall (fun c => is_json c || is_divider c = true)
                   (raw_calls i total shown).
Proof.
  induction shown as [|result shown IH]; intros i; [constructor|].
  cbn [raw_calls]. constructor; [done|].
  destruct (Z.of_nat i <? Z.of_nat total - 1)%Z; cbn [app];
    [constructor; [done|]|]; apply IH.
Qed.

(** X18: the raw results are shown ten at most.  Each shown record is
    followed by a divider unless it is the last record of the whole list: up
    to ten records have dividers between them only, and from eleven records
    on the tenth has one after it too.  The loop draws nothing else and
    leaves the world alone. *)
Theorem raw_results_shown (results : list pydict) (p : page) :
  let calls := raw_calls 0 (length results) (take 10 results) in
  show_raw_results 0 (length results) (take 10 results) p
  = (inr tt, {| page_world := page_world p; display := display p ++ calls |})
  /\ length (List.filter is_json calls) = Nat.min 10 (length results)
  /\ length (List.filter is_divider calls) = Nat.min 10 (length results - 1)
  /\ Forall (fun c => is_json c || is_divider c = true) calls.
Proof.
  cbn zeta. split; [apply show_raw_results_draws|].
  destruct (raw_calls_counts (length results) (take 10 results) 0)
    as [Hjson Hdivider].
  rewrite Hjson, Hdivider, length_take.
  split; [done|]. split; [lia|]. apply raw_calls_kinds.
Qed.

(** *** The metrics *)

Lemma py_set_unhashable (values : list pyval) :
  Exists (fun v => py_hashable v = false) values ->
  forall seen, exists v, py_set values seen = inl (TypeError_unhashable v).
Proof.
  induction 1 as [v values Hv|v values _ IH]; intros seen; cbn [py_set].
  - rewrite Hv. by eexists.
  - destruct (py_hashable v); [apply IH|by eexists].
Qed.

(** X19: [main] builds a set of the resource types outside any [try]: when
    the resource type of a record cannot be hashed, the branch that shows
    the results raises [TypeError] after the first two metrics, before the
    raw results are shown and before any analysis is asked for. *)
Theorem show_results_unhashable (results : list pydict)
    (user_question gemini_api_key : string) (p : page) :
  Exists (fun r => py_hashable (shown_resource_type r) = false) results ->
  exists v,
    show_results svc results user_question gemini_api_key p
    = (inl (TypeError_unhashable v),
       {| page_world := page_world p;
          display :=
            display p
            ++ [St_subheader "Query Results";
                St_columns (PyInt 3);
                St_markdown
                  (metric_card "Total Entries"
                     (py_str svc (PyInt (Z.of_nat (length results)))) "") true;
                St_markdown
                  (metric_card "Error Entries"
                     (py_str svc (PyInt (Z.of_nat (error_count results)))) "") true] |}).
Proof.
  intros Hbad.
  assert (exists v, unique_resources results = inl (TypeError_unhashable v))
    as [v Hv].
  { unfold unique_resources.
    destruct (py_set_unhashable (map shown_resource_type results)) with (seen := @nil pyval)
      as [v Hv].
    - apply List.Exists_exists in Hbad as (r & Hr & Hbad).
      apply List.Exists_exists. exists (shown_resource_type r).
      split; [by apply List.in_map|done].
    - exists v. unfold shown_resource_type in Hv. by rewrite Hv. }
  exists v. unfold show_results.
  do 4 (erewrite pbind_returns by reflexivity).
  erewrite pbind_raises; cycle 1.
  { apply in_world_runs. unfold lift. by rewrite Hv. }
  unfold draw. cbn [page_world display].
  by rewrite <- !app_assoc.
Qed.

(** *** The run as a whole *)

(** X20: as long as the key or the API key is missing, a run calls no
    method and no service: it draws the sidebar, the hint, the instructions
    and the footer, and leaves the configured key, the files and the trace as
    they were.  The button that validates is not even drawn. *)
Theorem main_without_inputs (inputs : Inputs) (p : page) :
  input_credentials inputs = "" \/ input_api_key inputs = "" ->
  main svc inputs p
  = (inr tt,
     {| page_world :=
          {| self := init; genai_api_key := genai_api_key (page_world p);
             files := files (page_world p); trace := trace (page_world p) |};
        display :=
          display p
          ++ [St_markdown
                "Ask questions about your GCP resources and get intelligent insights from Cloud Logging data."
                false;
              St_sidebar_header "Configuration";
              St_sidebar_subheader "GCP Service Account Key";
              St_sidebar_text_area "Paste your GCP Service Account JSON key:";
              St_sidebar_text_input "Gemini API Key:";
              St_info "👈 Please provide your GCP Service Account JSON key and Gemini API key in the sidebar to get started.";
              St_header "How to Use";
              St_markdown how_to_use false;
              St_markdown footer true] |}).
Proof.
  intros Hmissing.
  assert (nonempty (input_credentials inputs) && nonempty (input_api_key inputs)
          = false) as Hcond.
  { unfold nonempty. destruct Hmissing as [-> | ->]; [done|].
    apply andb_false_r. }
  unfold main, validate_on_click. rewrite Hcond.
  unfold render_footer, pbind, draw, in_world, set_self, pret.
  cbn [fst snd page_world display self genai_api_key files trace orb].
  by rewrite <- !app_assoc.
Qed.

(** X21: a selected example replaces the question that was typed: with an
    example selected, the run is the same whatever the text input holds. *)
Theorem example_replaces_question (inputs : Inputs) (typed : string) (p : page) :
  input_example inputs <> "" ->
  main svc {| input_credentials := input_credentials inputs;
              input_api_key := input_api_key inputs;
              clicked_validate := clicked_validate inputs;
              input_question := typed;
              input_example := input_example inputs;
              clicked_analyze := clicked_analyze inputs |} p
  = main svc inputs p.
Proof.
  intros Hexample. apply String.eqb_neq in Hexample.
  unfold main, validate_on_click, main_interface, nonempty.
  cbn [input_credentials input_api_key clicked_validate input_question
       input_example clicked_analyze].
  by rewrite Hexample.
Qed.

(** *** How often a run validates *)

Lemma pbind_assoc {A B C} (m : P A) (k : A -> P B) (h : B -> P C) (p : page) :
  pbind (pbind m k) h p = pbind m (fun a => pbind (k a) h) p.
Proof. unfold pbind. by destruct (m p) as [[e|a] p']. Qed.

(** The verdict on a key and the events of its validation are the same in
    every world, and there is at least one event; a rejected key keeps the
    client, an accepted one sets it. *)
Lemma validate_uniform (credentials_json : string) :
  exists accepted evs,
    evs <> []
    /\ forall w, exists w',
         validate_and_set_credentials svc credentials_json w = (inr accepted, w')
         /\ trace w' = trace w ++ evs
         /\ if accepted : bool then is_Some (logging_client (self w'))
            else logging_client (self w') = logging_client (self w).
Proof.
  assert (forall e w,
    validate_and_set_credentials_except svc e w
    = (inr false,
       after w [St_error (if is_JSONDecodeError e
                          then "Invalid JSON format in credentials"
                          else "Error setting up credentials: " +:+ exn_str svc e)]))
    as Hexcept.
  { intros e w. unfold validate_and_set_credentials_except, bind, st_error, emit, ret.
    by destruct (is_JSONDecodeError e). }
  unfold validate_and_set_credentials, try_except.
  destruct (json_loads svc credentials_json) as [e|data] eqn:Hloads.
  { exists false. eexists. split; cycle 1.
    { intros w. eexists.
      rewrite validate_body_paths, Hloads, Hexcept. unfold after. done. }
    done. }
  destruct (first_missing required_fields data) as [e|[f|]] eqn:Hloop.
  { exists false. eexists. split; cycle 1.
    { intros w. eexists.
      rewrite validate_body_paths, Hloads, Hloop, Hexcept. unfold after. done. }
    done. }
  { exists false. eexists. split; cycle 1.
    { intros w. eexists.
      rewrite validate_body_paths, Hloads, Hloop. unfold after. done. }
    done. }
  destruct (from_service_account_info svc data) as [e|] eqn:Hcreds.
  { exists false. eexists. split; cycle 1.
    { intros w. eexists.
      rewrite validate_body_paths, Hloads, Hloop. cbn zeta.
      rewrite Hcreds, Hexcept. unfold after. cbn. split; [done|].
      split; [by rewrite <- ?app_assoc|done]. }
    done. }
  destruct (py_getitem data "project_id") as [e|project] eqn:Hproject.
  { exists false. eexists. split; cycle 1.
    { intros w. eexists.
      rewrite validate_body_paths, Hloads, Hloop. cbn zeta.
      rewrite Hcreds, Hproject, Hexcept. unfold after. cbn. split; [done|].
      split; [by rewrite <- ?app_assoc|done]. }
    done. }
  destruct (logging_Client svc {| service_account_info := data |} project)
    as [e|] eqn:Hclient.
  { exists false. eexists. split; cycle 1.
    { intros w. eexists.
      rewrite validate_body_paths, Hloads, Hloop. cbn zeta.
      rewrite Hcreds, Hproject, Hclient, Hexcept. unfold after. cbn. split; [done|].
      split; [by rewrite <- ?app_assoc|done]. }
    done. }
  exists true. eexists. split; cycle 1.
  { intros w. eexists.
    rewrite validate_body_paths, Hloads, Hloop. cbn zeta.
    rewrite Hcreds, Hproject, Hclient. cbn. split; [done|].
    split; [by rewrite <- !app_assoc|by eexists]. }
  done.
Qed.

(** The main interface of a run on a page whose calls so far are [shown]:
    it validates when there is no client and goes on to the question. *)
Lemma main_interface_runs (inputs : Inputs) (w : world) (shown : list ui_call) :
  nonempty (input_credentials inputs) = true ->
  (exists r, validate_and_set_credentials svc (input_credentials inputs) w
             = (inr r, snd (validate_and_set_credentials svc
                                (input_credentials inputs) w))) ->
  pbind (main_interface svc inputs) (fun _ => render_footer)
        {| page_world := w; display := shown |}
  = analysis_and_footer svc inputs
      {| page_world :=
           match logging_client (self w) with
           | Some _ => w
           | None => snd (validate_and_set_credentials svc
                            (input_credentials inputs) w)
           end;
         display := shown ++ question_calls |}.
Proof.
  intros Hcredentials [r Hrun].
  unfold main_interface, analysis_and_footer.
  rewrite pbind_assoc. erewrite pbind_returns by reflexivity.
  cbn [page_world]. rewrite Hcredentials, andb_true_r.
  rewrite pbind_assoc.
  destruct (logging_client (self w)) as [client|] eqn:Hclient.
  - rewrite bool_decide_true by (by eexists). cbn [negb].
    erewrite pbind_returns by reflexivity.
    do 4 (rewrite pbind_assoc; erewrite pbind_returns by reflexivity).
    unfold question_calls. cbn [page_world display].
    by rewrite <- !app_assoc.
  - rewrite bool_decide_false by (by intros [? ?]). cbn [negb].
    erewrite pbind_returns; cycle 1.
    { erewrite pbind_returns; [reflexivity|].
      apply in_world_runs. exact Hrun. }
    do 4 (rewrite pbind_assoc; erewrite pbind_returns by reflexivity).
    unfold question_calls. cbn [page_world display].
    by rewrite <- !app_assoc.
Qed.

(** X22: with both inputs given, every run validates the key, whether or not
    the button was clicked, and the number of validations is exact.  A click
    on a key that is accepted validates once, and the main interface does
    not validate again; without a click the main interface validates once on
    its own, the app object being new in every run; a click on a key that is
    rejected validates twice in the same run, so that the same events, the
    report among them, come twice.  The run is then the button of the
    analysis with what it starts and the footer, on the world these
    validations leave: nothing else of [main] acts on the world, and without
    a click on the button of the analysis this world is the one the run ends
    with. *)
Theorem main_validates (inputs : Inputs) (p : page) :
  input_credentials inputs <> "" ->
  input_api_key inputs <> "" ->
  exists accepted evs,
    evs <> []
    /\ (forall w,
          fst (validate_and_set_credentials svc (input_credentials inputs) w)
          = inr accepted
          /\ trace (snd (validate_and_set_credentials svc (input_credentials inputs) w))
             = trace w ++ evs)
    /\ let twice := clicked_validate inputs && negb accepted in
       let once :=
         snd (validate_and_set_credentials svc (input_credentials inputs)
                (new_app (page_world p))) in
       let validated :=
         if twice
         then snd (validate_and_set_credentials svc (input_credentials inputs) once)
         else once in
       trace validated = trace (page_world p) ++ (if twice then evs ++ evs else evs)
       /\ main svc inputs p
          = analysis_and_footer svc inputs
              {| page_world := validated;
                 display :=
                   display p ++ sidebar_calls
                   ++ (if clicked_validate inputs
                       then [click_badge svc accepted validated] else [])
                   ++ question_calls |}
       /\ (clicked_analyze inputs = false ->
           page_world (snd (main svc inputs p)) = validated).
Proof.
  intros Hcredentials Hkey.
  apply String.eqb_neq in Hcredentials, Hkey.
  assert (nonempty (input_credentials inputs) = true) as Hc
    by (unfold nonempty; by rewrite Hcredentials).
  assert (nonempty (input_api_key inputs) = true) as Hk
    by (unfold nonempty; by rewrite Hkey).
  destruct (validate_uniform (input_credentials inputs))
    as (accepted & evs & Hmark & Huniform).
  exists accepted, evs. split; [done|]. split.
  { intros w. destruct (Huniform w) as (w' & -> & Htrace & _). done. }
  cbn zeta.
  assert (forall w, exists r,
            validate_and_set_credentials svc (input_credentials inputs) w
            = (inr r, snd (validate_and_set_credentials svc
                             (input_credentials inputs) w))) as Hreturns.
  { intros w. destruct (Huniform w) as (w' & -> & _). by eexists. }
  destruct (Huniform (new_app (page_world p))) as (w1 & Hrun1 & Htrace1 & Hclient1).
  destruct (Huniform w1) as (w2 & Hrun2 & Htrace2 & _).
  rewrite Hrun1. cbn [snd]. rewrite Hrun2. cbn [snd].
  assert (main svc inputs p
          = analysis_and_footer svc inputs
              {| page_world := if clicked_validate inputs && negb accepted
                               then w2 else w1;
                 display :=
                   display p ++ sidebar_calls
                   ++ (if clicked_validate inputs
                       then [click_badge svc accepted
                               (if clicked_validate inputs && negb accepted
                                then w2 else w1)]
                       else [])
                   ++ question_calls |}) as Hmain.
  { unfold main.
    do 6 (erewrite pbind_returns by reflexivity).
    unfold validate_on_click. rewrite Hc, Hk. cbn [andb orb].
    rewrite pbind_assoc. erewrite pbind_returns by reflexivity.
    cbn [page_world display set_self fst snd].
    fold (new_app (page_world p)).
    destruct (clicked_validate inputs); cbn [andb].
    - rewrite pbind_assoc.
      erewrite pbind_returns by (apply in_world_runs; exact Hrun1).
      cbn [page_world display].
      destruct accepted; cbn [negb].
      + do 2 (rewrite pbind_assoc; erewrite pbind_returns by reflexivity).
        erewrite pbind_returns by reflexivity.
        cbn [orb page_world display get_self fst snd].
        rewrite main_interface_runs; [|exact Hc|apply Hreturns].
        destruct Hclient1 as [client ->].
        unfold sidebar_calls, click_badge. by rewrite <- !app_assoc.
      + rewrite pbind_assoc. erewrite pbind_returns by reflexivity.
        erewrite pbind_returns by reflexivity.
        cbn [orb page_world display].
        rewrite main_interface_runs; [|exact Hc|apply Hreturns].
        rewrite Hclient1. cbn [new_app self init logging_client].
        rewrite Hrun2. cbn [snd].
        unfold sidebar_calls, click_badge. by rewrite <- !app_assoc.
    - erewrite pbind_returns by reflexivity.
      cbn [orb page_world display].
      rewrite main_interface_runs; [|exact Hc|apply Hreturns].
      cbn [new_app self init logging_client].
      fold (new_app (page_world p)).
      rewrite Hrun1. cbn [snd].
      unfold sidebar_calls. by rewrite <- !app_assoc. }
  split; [|split; [exact Hmain|]].
  - destruct (clicked_validate inputs && negb accepted).
    + by rewrite Htrace2, Htrace1, <- app_assoc.
    + exact Htrace1.
  - intros Hclick. rewrite Hmain.
    unfold analysis_and_footer. rewrite Hclick, Hk, andb_true_r.
    by destruct (nonempty (if nonempty (input_example inputs)
                           then input_example inputs else input_question inputs)).
Qed.

End PageProperties.

(** * The further properties at work *)

(** X1 when the quota of the log service is used up. *)
Lemma execute_fetch_failure_witness :
  execute_logging_query Trouble.no_fetch "severity>=ERROR" 100 Sample.connected
  = (inr [],
     after Sample.connected
       [Call_list_entries Sample.client "severity>=ERROR" 100;
        St_error ("Error executing query: "
                  +:+ exn_str Trouble.no_fetch Trouble.quota)]).
Proof.
  apply (execute_fetch_failure Trouble.no_fetch "severity>=ERROR" 100
           Sample.client Trouble.quota Sample.connected); reflexivity.
Defined.

(** X2 when the disk is full. *)
Lemma execute_open_failure_witness :
  execute_logging_query Trouble.no_disk "severity>=ERROR" 100 Sample.connected
  = (inr [],
     after Sample.connected
       [Call_list_entries Sample.client "severity>=ERROR" 100;
        Call_open_write "my_dict.csv";
        St_error ("Error executing query: "
                  +:+ exn_str Trouble.no_disk Trouble.disk)]).
Proof.
  apply (execute_open_failure Trouble.no_disk "severity>=ERROR" 100
           Sample.client [Sample.text_entry; Sample.bare_entry] Trouble.disk
           Sample.connected); reflexivity.
Defined.

(** X4 on a complete key when the client cannot be made: the fresh instance
    ends with credentials and project but without a client. *)
Lemma validate_client_failure_witness :
  fst (validate_and_set_credentials Trouble.no_client Sample.good_key Sample.fresh)
  = inr false
  /\ self (snd (validate_and_set_credentials Trouble.no_client Sample.good_key
                                             Sample.fresh))
     = {| logging_client := None;
          credentials :=
            Some {| service_account_info := Sample.key_value (PyStr "service_account") |};
          project_id := PyStr "demo-project" |}.
Proof.
  apply (validate_client_failure Trouble.no_client Sample.good_key _
           (PyStr "demo-project") Trouble.denied Sample.fresh).
  - reflexivity.
  - repeat constructor; eexists; reflexivity.
  - reflexivity.
  - reflexivity.
  - reflexivity.
Defined.

(** X5 on a connected instance: the client of before survives the failure. *)
Lemma validate_failure_keeps_client_witness :
  logging_client
    (self (snd (validate_and_set_credentials Trouble.no_client Sample.good_key
                                             Sample.connected)))
  = Some Sample.client.
Proof.
  apply (validate_failure_keeps_client Trouble.no_client Sample.good_key
           Sample.connected).
  reflexivity.
Defined.

(** X7 on the sample answer. *)
Lemma generate_returns_stripped_answer_witness :
  generate_logging_query Sample.svc "which errors today?" "key" Sample.fresh
  = (inr (Sample.strip " severity>=ERROR "),
     {| self := self Sample.fresh; genai_api_key := Some "key";
        files := files Sample.fresh;
        trace := trace Sample.fresh
                 ++ [Call_genai_configure "key";
                     Call_GenerativeModel "gemini-1.5-flash";
                     Call_generate_content (query_prompt "which errors today?")] |}).
Proof.
  apply (generate_returns_stripped_answer Sample.svc "which errors today?" "key"
           " severity>=ERROR " {| text := inr " severity>=ERROR " |} Sample.fresh);
    reflexivity.
Defined.

(** X10 on one record. *)
Lemma analyze_results_sends_summary_witness :
  Call_generate_content
    (analysis_prompt Sample.svc "why"
       (summary_value
          {| total_entries := 1;
             severity_counts := [(PyStr "ERROR", 1%nat)];
             resource_types := [(PyStr "gce_instance", 1%nat)];
             time_range := {| earliest := PyStr "2024-01-01T13:00:00+00:00";
                              latest := PyStr "2024-01-01T13:00:00+00:00" |} |})
       (PyList (PyDict <$> take 3 (entry_dict Sample.svc <$> [Sample.text_entry]))))
  ∈ trace (snd (analyze_results Sample.svc
                  (entry_dict Sample.svc <$> [Sample.text_entry])
                  "why" "key" Sample.fresh)).
Proof.
  apply (analyze_results_sends_summary Sample.svc
           (entry_dict Sample.svc <$> [Sample.text_entry]) "why" "key" _ Sample.fresh).
  - discriminate.
  - reflexivity.
  - reflexivity.
  - reflexivity.
Defined.

(** X11 on the record of an entry that carries nothing. *)
Lemma analyze_without_timestamps_witness :
  analyze_results Sample.svc (entry_dict Sample.svc <$> [Sample.bare_entry])
                  "why" "key" Sample.fresh
  = (inr "Error analyzing results",
     {| self := self Sample.fresh; genai_api_key := Some "key";
        files := files Sample.fresh;
        trace := trace Sample.fresh
                 ++ [Call_genai_configure "key";
                     Call_GenerativeModel "gemini-1.5-flash";
                     St_error ("Error analyzing results: "
                               +:+ exn_str Sample.svc ValueError_empty_sequence)] |}).
Proof.
  apply (analyze_without_timestamps Sample.svc
           (entry_dict Sample.svc <$> [Sample.bare_entry]) "why" "key" Sample.fresh).
  - discriminate.
  - repeat constructor; eexists; reflexivity.
  - reflexivity.
  - reflexivity.
  - reflexivity.
Defined.

(** X12 on a record that has a severity and nothing else. *)
Lemma summary_needs_timestamp_key_witness :
  exists e, results_summary [[(PyStr "severity", PyStr "INFO")]] = inl e.
Proof.
  apply (summary_needs_timestamp_key [[(PyStr "severity", PyStr "INFO")]]).
  constructor. reflexivity.
Defined.

(** X13 on three records, two of them errors. *)
Lemma summary_counts_are_tallies_witness :
  exists summary,
    results_summary
      (entry_dict Sample.svc
         <$> [Sample.text_entry; Sample.struct_entry; Sample.text_entry])
    = inr summary
    /\ default 0%nat (dict_find (PyStr "ERROR") (severity_counts summary)) = 2%nat
    /\ default 0%nat (dict_find (PyStr "ERROR") (resource_types summary)) = 0%nat.
Proof.
  eexists. split; [reflexivity|].
  exact (summary_counts_are_tallies
           (entry_dict Sample.svc
              <$> [Sample.text_entry; Sample.struct_entry; Sample.text_entry])
           _ (PyStr "ERROR") eq_refl eq_refl).
Defined.

(** X16 when the answer is blank. *)
Lemma run_analysis_without_query_witness :
  run_analysis Trouble.blank_answer "why" "key" Trouble.connected_page
  = (inr tt,
     {| page_world :=
          after (snd (generate_logging_query Trouble.blank_answer "why" "key"
                                             Sample.connected))
                [St_error
                   "Failed to generate query. Please check your question and try again."];
        display := [St_spinner "Generating Cloud Logging query..."] |}).
Proof.
  apply (run_analysis_without_query Trouble.blank_answer "why" "key"
           Trouble.connected_page).
  reflexivity.
Defined.

(** X17 when the log service finds nothing. *)
Lemma run_analysis_without_results_witness :
  exists query w1,
    generate_logging_query Trouble.nothing_found "why" "key" Sample.connected
    = (inr query, w1)
    /\ run_analysis Trouble.nothing_found "why" "key" Trouble.connected_page
       = (inr tt,
          {| page_world := snd (execute_logging_query Trouble.nothing_found query 100 w1);
             display :=
               display Trouble.connected_page
               ++ [St_spinner "Generating Cloud Logging query...";
                   St_subheader "Generated Query";
                   St_markdown (query_display query) true;
                   St_spinner "Executing query...";
                   St_warning
                     "No results found for your query. Try rephrasing your question."] |}).
Proof.
  do 2 eexists. split; [reflexivity|].
  apply (run_analysis_without_results Trouble.nothing_found "why" "key"
           _ _ Trouble.connected_page).
  - reflexivity.
  - discriminate.
  - reflexivity.
Defined.

(** X19 on a record whose resource type is a list. *)
Lemma show_results_unhashable_witness :
  exists v,
    show_results Sample.svc [Trouble.odd_record] "why" "key" Trouble.connected_page
    = (inl (TypeError_unhashable v),
       {| page_world := Sample.connected;
          display :=
            display Trouble.connected_page
            ++ [St_subheader "Query Results";
                St_columns (PyInt 3);
                St_markdown
                  (metric_card "Total Entries"
                     (py_str Sample.svc
                        (PyInt (Z.of_nat (length [Trouble.odd_record])))) "") true;
                St_markdown
                  (metric_card "Error Entries"
                     (py_str Sample.svc
                        (PyInt (Z.of_nat (error_count [Trouble.odd_record])))) "")
                  true] |}).
Proof.
  apply (show_results_unhashable Sample.svc [Trouble.odd_record] "why" "key"
           Trouble.connected_page).
  constructor. reflexivity.
Defined.

(** X20 on a run in which only the API key was typed. *)
Lemma main_without_inputs_witness :
  fst (main Sample.svc
         {| input_credentials := ""; input_api_key := "key";
            clicked_validate := true; input_question := "why";
            input_example := ""; clicked_analyze := true |}
         Trouble.connected_page) = inr tt
  /\ trace (page_world (snd (main Sample.svc
         {| input_credentials := ""; input_api_key := "key";
            clicked_validate := true; input_question := "why";
            input_example := ""; clicked_analyze := true |}
         Trouble.connected_page))) = [].
Proof.
  rewrite (main_without_inputs Sample.svc
             {| input_credentials := ""; input_api_key := "key";
                clicked_validate := true; input_question := "why";
                input_example := ""; clicked_analyze := true |}
             Trouble.connected_page (or_introl eq_refl)).
  split; reflexivity.
Defined.

(** X21 with the first example selected. *)
Lemma example_replaces_question_witness :
  main Sample.svc
    {| input_credentials := Sample.good_key; input_api_key := "key";
       clicked_validate := false; input_question := "something else";
       input_example := "How many Dataflow jobs failed today?";
       clicked_analyze := true |} Trouble.connected_page
  = main Sample.svc
      {| input_credentials := Sample.good_key; input_api_key := "key";
         clicked_validate := false; input_question := "";
         input_example := "How many Dataflow jobs failed today?";
         clicked_analyze := true |} Trouble.connected_page.
Proof.
  apply (example_replaces_question Sample.svc
           {| input_credentials := Sample.good_key; input_api_key := "key";
              clicked_validate := false; input_question := "";
              input_example := "How many Dataflow jobs failed today?";
              clicked_analyze := true |} "something else" Trouble.connected_page).
  discriminate.
Defined.

(** X22 on a click with a text that is not JSON: the key is validated
    twice. *)
Lemma main_validates_witness :
  exists accepted evs,
    evs <> []
    /\ (forall w,
          fst (validate_and_set_credentials Sample.svc "{" w) = inr accepted
          /\ trace (snd (validate_and_set_credentials Sample.svc "{" w))
             = trace w ++ evs)
    /\ let twice := true && negb accepted in
       let once :=
         snd (validate_and_set_credentials Sample.svc "{"
                (new_app Sample.connected)) in
       let validated :=
         if twice then snd (validate_and_set_credentials Sample.svc "{" once)
         else once in
       trace validated = trace Sample.connected ++ (if twice then evs ++ evs else evs)
       /\ main Sample.svc Trouble.rejected_click Trouble.connected_page
          = analysis_and_footer Sample.svc Trouble.rejected_click
              {| page_world := validated;
                 display :=
                   display Trouble.connected_page ++ sidebar_calls
                   ++ [click_badge Sample.svc accepted validated]
                   ++ question_calls |}
       /\ (clicked_analyze Trouble.rejected_click = false ->
           page_world (snd (main Sample.svc Trouble.rejected_click
                                 Trouble.connected_page)) = validated).
Proof.
  apply (main_validates Sample.svc Trouble.rejected_click Trouble.connected_page);
    discriminate.
Defined.
